(** * The upload worker ([src/index.ts]): authorisation and multipart
      upload routing, as a shallow embedding.

    The worker is one [fetch] handler.  Everything it calls that lives
    outside [index.ts] (the token codec ['./jwt'], the [cookie] package, the
    global [fetch], [Date.now], the R2 bucket binding) is a field of a
    record that the handler receives, so that every statement below holds
    for any behaviour of these collaborators.  Calls that leave the handler
    are logged as events, which is how "is (not) invoked" is stated. *)

From Stdlib Require Import ZArith Lia String Ascii List Bool.
From stdpp Require Import base option strings gmap list.

Import ListNotations.
Local Open Scope string_scope.
Local Open Scope list_scope.
Local Open Scope Z_scope.

(** ** Data model *)

(** [type OrderStatus]. *)
Inductive OrderStatus :=
| created | accepted | queued | work_started | work_completed
| delivered | pending | declined.

(** [type OrderMetadata]. *)
Record OrderMetadata := {
  orderId : string;
  orderCartId : string;
  orderSongIds : list string;
  orderStatus : OrderStatus
}.

Record MayAct := { client_id : string }.

(** [type Claims].  The declared type has no [aud], yet [signJwt] writes it
    and [verifyRequest] reads it from the verified payload, where it is
    [undefined] ([None]) when the token does not carry it. *)
Record Claims := {
  aud : option string;
  realm : string;
  sub : string;
  may_act : MayAct;
  nbf : Z;
  iat : Z;
  addl : OrderMetadata
}.

(** What [verify] resolves to when it accepts a token: [verified.payload]. *)
Record JwtData := { payload : Claims }.

(** JSON values, as [response.json()] and [request.json()] produce them. *)
#[local] Unset Elimination Schemes.
Inductive Json :=
| JNull
| JBool (b : bool)
| JNumber (n : Z)
| JString (s : string)
| JArray (items : list Json)
| JObject (fields : list (string * Json)).
#[local] Set Elimination Schemes.

(** A JavaScript number as [parseInt] returns it: [NaN], an infinity, or a
    finite number, whose value is an integer ([-0] is [0]). *)
Inductive JsNumber := NaN | Infinity (negative : bool) | Num (n : Z).

(** Outcome of an evaluation that may throw; [Throw] carries
    [error.message]. *)
Inductive Result (A : Type) := Ok (a : A) | Throw (message : string).
Arguments Ok {A} a.
Arguments Throw {A} message.

(** ** The R2 bucket binding *)

Record R2MultipartUpload := { mpu_key : string; mpu_uploadId : string }.
Record R2UploadedPart := { partNumber : JsNumber; etag : string }.
Record R2ObjectBody := {
  obj_body : string;
  httpEtag : string;
  httpMetadata : list (string * string)
}.

(** The operations of the binding that the handler invokes. *)
Inductive StoreOp :=
| OpCreateMultipartUpload (key : string)
| OpResumeMultipartUpload (key uploadId : string)
| OpUploadPart (key uploadId : string) (partNumber : JsNumber) (body : string)
| OpComplete (key uploadId : string) (parts : option Json)
| OpAbort (key uploadId : string)
| OpGet (key : string)
| OpDelete (key : string).

(** How the bucket settles each asynchronous operation: [Ok] for a
    fulfilled promise, [Throw] for a rejected one.
    [resumeMultipartUpload] is synchronous and only builds a handle. *)
Record R2Bucket := {
  createMultipartUpload : string -> Result R2MultipartUpload;
  uploadPart : string -> string -> JsNumber -> string -> Result R2UploadedPart;
  complete : string -> string -> option Json -> Result R2ObjectBody;
  abort : string -> string -> Result unit;
  get : string -> Result (option R2ObjectBody);
  delete : string -> Result unit
}.

(** [interface Env]: the fields [index.ts] reads.  The remaining fields of
    the interface (bearer token, Turso and Clerk settings, [ENVIRONMENT])
    are never read by the handler. *)
Record Env := {
  BUCKET_NAME : R2Bucket;
  COOKIE_NAME : string;
  AUTHORIZED_SUBJECT : string;
  AUTHORIZED_REALM : string;
  AUTHORIZED_CLIENT_ID : string;
  aUTHORIZED_AUDIENCE : string;
  CLOUDFLARE_WORKER_PRIVATE_KEY : string;
  CLOUDFLARE_WORKER_PUBLIC_KEY : string;
  CLOUDFLARE_WORKER_AUD : string;
  CLOUDFLARE_WORKER_REALM : string;
  CLOUDFLARE_WORKER_SUB : string;
  CLOUDFLARE_WORKER_CLIENT_ID : string;
  CLOUDFLARE_WORKER_SIGNING_ALGO : string;
  CONVEYOR_API_URL : string;
  CONVEYOR_API_VERSION : string
}.

(** ** Requests and responses *)

(** [Headers], keyed by lower-case header name. *)
Abbreviation Headers := (gmap string string).

(** A parsed [URL]: [searchParams] keeps order and duplicates, [get]
    returns the first value of a name. *)
Record URL := { pathname : string; searchParams : list (string * string) }.

Record Request := {
  method : string;
  url : URL;
  headers : Headers;
  body : option string  (* [request.body]; [None] is [null] *)
}.

Inductive ResponseBody :=
| NoBody                      (* [new Response(null, ...)] *)
| Text (s : string)
| JsonText (j : Json)         (* [JSON.stringify(j)] *)
| ObjectStream (content : string).

Record Response := {
  resp_body : ResponseBody;
  status : Z;
  resp_headers : list (string * string)
}.

(** [ApiError | ApiResponse<T>]: one object type with optional properties,
    [None] standing for an absent ([undefined]) property. *)
Record ApiResult := {
  error : option Json;
  data : option Json;
  api_status : Z
}.

(** The response of the verification service: its status and what
    [response.json()] settles to. *)
Record HttpResponse := { http_status : Z; http_json : Result Json }.

(** ** Events and the handler monad *)

Inductive Event :=
| EvVerify (token key algorithm : string)
| EvSign (claims : Claims) (key algorithm : string)
| EvFetch (url cookie : string)
| EvStore (op : StoreOp).

(** A promise: what it settles to, and the calls its computation makes
    while it runs.  They are logged where the promise is awaited; the calls
    of a promise that is never awaited stay with it, unordered with respect
    to the caller. *)
Record Promise (A : Type) := {
  settled : Result A;
  effects : list Event
}.
Arguments settled {A} p.
Arguments effects {A} p.

(** Computations log their calls and return or throw. *)
Definition M (A : Type) : Type := list Event -> Result A * list Event.

Definition ret {A} (a : A) : M A := fun log => (Ok a, log).
Definition throw {A} (message : string) : M A := fun log => (Throw message, log).
Definition bind {A B} (m : M A) (k : A -> M B) : M B :=
  fun log =>
    match m log with
    | (Ok a, log') => k a log'
    | (Throw e, log') => (Throw e, log')
    end.
Definition emit (e : Event) : M unit := fun log => (Ok tt, log ++ [e]).
Definition lift {A} (r : Result A) : M A := fun log => (r, log).

Notation "x <- m ;; k" := (bind m (fun x => k))
  (at level 100, m at next level, right associativity).
Notation "m ;;; k" := (bind m (fun _ => k))
  (at level 100, right associativity).

(** [try { m } catch (error) { handler error.message }]. *)
Definition try_catch {A} (m : M A) (handler : string -> M A) : M A :=
  fun log =>
    match m log with
    | (Ok a, log') => (Ok a, log')
    | (Throw e, log') => handler e log'
    end.

(** The part of a [try] block that ran before the value it assigns was
    available: its exception is handed to the code that follows. *)
Definition caught {A} (m : M A) : M (Result A) :=
  fun log => let '(r, log') := m log in (Ok r, log').

(** Calling an [async] function gives a promise at once. *)
Definition async {A} (m : M A) : M (Promise A) :=
  fun log => let '(r, evs) := m [] in (Ok {| settled := r; effects := evs |}, log).

(** [await p]. *)
Definition await {A} (p : Promise A) : M A :=
  fun log => (settled p, log ++ effects p).

(** Running a computation from an empty log. *)
Definition run {A} (m : M A) : Result A * list Event := m [].

(** ** JavaScript coercions *)

(** [ToBoolean], the coercion behind [!x] and [if (x)]. *)
Class ToBoolean (A : Type) := to_boolean : A -> bool.

(** [string | null | undefined]: only a non-empty string is truthy. *)
#[export] Instance string_to_boolean : ToBoolean (option string) :=
  fun v => match v with
           | Some s => negb (String.eqb s "")
           | None => false
           end.

(** An object or [undefined]. *)
#[export] Instance jwtdata_to_boolean : ToBoolean (option JwtData) :=
  fun v => match v with Some _ => true | None => false end.

(** A promise is an object: always truthy, whatever it settles to. *)
#[export] Instance promise_to_boolean {A} : ToBoolean (Promise A) :=
  fun _ => true.

(** [a !== b] on strings, and on a possibly [undefined] string. *)
Definition strict_neq (a b : string) : bool := negb (String.eqb a b).
Definition strict_neq_undef (a : option string) (b : string) : bool :=
  match a with
  | Some s => strict_neq s b
  | None => true
  end.

(** ** Collaborators outside [index.ts] *)

(** The imported functions and platform globals the handler calls:
    [parse] and [stringifyCookie] of the [cookie] package (the latter
    applied to [{ jwt: value }]), [verify] and [sign] of ['./jwt'],
    [Date.now()], the global [fetch] as a function of the URL and the
    cookie header it is given, the JSON parser behind [request.json()],
    and the global [parseInt] called with one argument. *)
Record Platform := {
  cookie_parse : string -> gmap string string;
  stringifyCookie : string -> Result string;
  jwt_verify : string -> string -> string -> option JwtData;
  jwt_sign : Claims -> string -> string -> Result string;
  Date_now : Z;
  global_fetch : string -> string -> Result HttpResponse;
  JSON_parse : string -> Result Json;
  parseInt : string -> JsNumber
}.

Section Worker.

Variable pf : Platform.

(** ** Authorisation *)

(** [isApiError]: [res.error !== undefined]. *)
Definition isApiError (res : ApiResult) : bool :=
  match error res with
  | Some _ => true
  | None => false
  end.

(** [sign(...)] and [verify(...)], logged with the key and algorithm they
    are handed. *)
Definition sign (claims : Claims) (key algorithm : string) : M string :=
  emit (EvSign claims key algorithm) ;;;
  lift (jwt_sign pf claims key algorithm).

Definition verify (token key algorithm : string) : M (option JwtData) :=
  emit (EvVerify token key algorithm) ;;;
  ret (jwt_verify pf token key algorithm).

Definition signJwt (meta : OrderMetadata) (env : Env) : M string :=
  let now := Date_now pf in
  sign {| aud := Some (CLOUDFLARE_WORKER_AUD env);
          realm := CLOUDFLARE_WORKER_REALM env;
          sub := CLOUDFLARE_WORKER_SUB env;
          may_act := {| client_id := CLOUDFLARE_WORKER_CLIENT_ID env |};
          nbf := now;
          iat := now;
          addl := meta |}
       (CLOUDFLARE_WORKER_PRIVATE_KEY env)
       (CLOUDFLARE_WORKER_SIGNING_ALGO env).

(** The URL of the verification endpoint. *)
Definition verify_url (env : Env) : string :=
  CONVEYOR_API_URL env +:+ "/api/" +:+ CONVEYOR_API_VERSION env +:+ "/order/verify".

(** [{ message: msg }]. *)
Definition error_message (msg : string) : Json := JObject [("message", JString msg)].

(** The global [fetch] with method GET and the one [cookie] header. *)
Definition http_get (target cookie : string) : M HttpResponse :=
  emit (EvFetch target cookie) ;;;
  lift (global_fetch pf target cookie).

(** [executeConveyorVerificationRequest].  The [catch] block reads
    [response?.status ?? 500]: [response] is still [undefined] when the
    exception comes from signing, from building the cookie or from [fetch]
    itself, which gives 500, and it is the received response when
    [response.json()] throws. *)
Definition executeConveyorVerificationRequest (meta : OrderMetadata) (env : Env)
  : M ApiResult :=
  received <- caught
                (jwt <- signJwt meta env ;;
                 cookieHeader <- lift (stringifyCookie pf jwt) ;;
                 http_get (verify_url env) cookieHeader) ;;
  match received with
  | Throw msg =>
      ret {| error := Some (error_message msg); data := None; api_status := 500 |}
  | Ok response =>
      try_catch
        (if negb (http_status response =? 200) then
           e <- lift (http_json response) ;;
           ret {| error := Some e; data := None; api_status := http_status response |}
         else
           d <- lift (http_json response) ;;
           ret {| error := None; data := Some d; api_status := http_status response |})
        (fun msg =>
           ret {| error := Some (error_message msg); data := None;
                  api_status := http_status response |})
  end.

(** [extractJwtCookie]. *)
Definition extractJwtCookie (cookieName : string) (headers : Headers)
  : option string :=
  let cookies := cookie_parse pf (default "" (headers !! "cookie")) in
  let cookie := headers !! "cookie" in
  if negb (to_boolean cookie) then None
  else cookies !! cookieName.

(** [verifyRequest]: the body of the [async] function; [true] is Allow,
    [false] is Deny. *)
Definition verifyRequest (headers : Headers) (env : Env) : M bool :=
  let jwt := extractJwtCookie (COOKIE_NAME env) headers in
  if negb (to_boolean jwt) then ret false
  else
    verified <- verify (default "" jwt) (CLOUDFLARE_WORKER_PUBLIC_KEY env)
                       (CLOUDFLARE_WORKER_SIGNING_ALGO env) ;;
    match verified with
    | None => ret false
    | Some verified =>
        let subject := sub (payload verified) in
        let aud := aud (payload verified) in
        let realm := realm (payload verified) in
        let client_id := client_id (may_act (payload verified)) in
        if strict_neq client_id (AUTHORIZED_CLIENT_ID env)
           || strict_neq realm (AUTHORIZED_REALM env)
           || strict_neq_undef aud (aUTHORIZED_AUDIENCE env)
           || strict_neq subject (AUTHORIZED_SUBJECT env)
        then ret false
        else
          response <- executeConveyorVerificationRequest (addl (payload verified)) env ;;
          if isApiError response then ret false
          else ret true
    end.

(** ** Helpers of the platform used by the router *)

(** [url.searchParams.get(name)]: the first value, or [null]. *)
Fixpoint searchParams_get (params : list (string * string)) (name : string)
  : option string :=
  match params with
  | [] => None
  | (k, v) :: rest => if String.eqb k name then Some v else searchParams_get rest name
  end.

(** [s.slice(1)]. *)
Definition slice1 (s : string) : string :=
  match s with
  | String _ rest => rest
  | EmptyString => ""
  end.

(** What [JSON.stringify] writes for a number. *)
Definition json_of_number (n : JsNumber) : Json :=
  match n with
  | Num z => JNumber z
  | NaN => JNull
  | Infinity _ => JNull
  end.

(** [j.name] on a parsed JSON value other than [null]: [undefined] unless
    [j] is an object with that property (the names of a parsed object are
    distinct). *)
Fixpoint assoc_get (fields : list (string * Json)) (name : string) : option Json :=
  match fields with
  | [] => None
  | (k, v) :: rest => if String.eqb k name then Some v else assoc_get rest name
  end.

Definition get_property (j : Json) (name : string) : option Json :=
  match j with
  | JObject fields => assoc_get fields name
  | _ => None
  end.

(** [headers.set(name, value)]. *)
Definition headers_set (name value : string) (hs : list (string * string))
  : list (string * string) :=
  List.filter (fun kv => negb (String.eqb (fst kv) name)) hs ++ [(name, value)].

(** [request.json()]: the body text parsed as JSON.  A [null] body has the
    empty text, and the empty text is not JSON. *)
Definition request_json (request : Request) : M Json :=
  let text := default "" (body request) in
  if String.eqb text "" then throw "Unexpected end of JSON input"
  else lift (JSON_parse pf text).

(** Invoking an asynchronous operation of the bucket: the call is made at
    once and gives a promise. *)
Definition invoke {A} (op : StoreOp) (outcome : Result A) : M (Promise A) :=
  emit (EvStore op) ;;;
  ret {| settled := outcome; effects := [] |}.

(** [bucket.resumeMultipartUpload(key, uploadId)]. *)
Definition resumeMultipartUpload (key uploadId : string) : M R2MultipartUpload :=
  emit (EvStore (OpResumeMultipartUpload key uploadId)) ;;;
  ret {| mpu_key := key; mpu_uploadId := uploadId |}.

Definition respond (b : ResponseBody) (code : Z) : M Response :=
  ret {| resp_body := b; status := code; resp_headers := [] |}.

(** ** The router: [fetch] after the authorisation check *)

Definition route (request : Request) (env : Env) : M Response :=
  let bucket := BUCKET_NAME env in
  let url := url request in
  let key := slice1 (pathname url) in
  match searchParams_get (searchParams url) "action" with
  | None => respond (Text "Missing action type") 400
  | Some action =>
    if String.eqb (method request) "POST" then
      if String.eqb action "mpu-create" then
        p <- invoke (OpCreateMultipartUpload key) (createMultipartUpload bucket key) ;;
        multipartUpload <- await p ;;
        respond (JsonText (JObject [("key", JString (mpu_key multipartUpload));
                                    ("uploadId", JString (mpu_uploadId multipartUpload))]))
                200
      else if String.eqb action "mpu-complete" then
        match searchParams_get (searchParams url) "uploadId" with
        | None => respond (Text "Missing uploadId") 400
        | Some uploadId =>
            multipartUpload <- resumeMultipartUpload key uploadId ;;
            completeBody <- request_json request ;;
            match completeBody with
            | JNull => respond (Text "Missing or incomplete body") 400
            | _ =>
                try_catch
                  (p <- invoke (OpComplete key uploadId (get_property completeBody "parts"))
                               (complete bucket key uploadId
                                         (get_property completeBody "parts")) ;;
                   object <- await p ;;
                   ret {| resp_body := NoBody; status := 200;
                          resp_headers := [("etag", httpEtag object)] |})
                  (fun msg => respond (Text msg) 400)
            end
        end
      else respond (Text ("Unknown action " +:+ action +:+ " for POST")) 400
    else if String.eqb (method request) "PUT" then
      if String.eqb action "mpu-uploadpart" then
        match searchParams_get (searchParams url) "partNumber",
              searchParams_get (searchParams url) "uploadId" with
        | Some partNumberString, Some uploadId =>
            match body request with
            | None => respond (Text "Missing request body") 400
            | Some requestBody =>
                let partNum := parseInt pf partNumberString in
                multipartUpload <- resumeMultipartUpload key uploadId ;;
                try_catch
                  (p <- invoke (OpUploadPart key uploadId partNum requestBody)
                               (uploadPart bucket key uploadId partNum requestBody) ;;
                   uploadedPart <- await p ;;
                   respond (JsonText (JObject
                              [("partNumber", json_of_number (partNumber uploadedPart));
                               ("etag", JString (etag uploadedPart))]))
                           200)
                  (fun msg => respond (Text msg) 400)
            end
        | _, _ => respond (Text "Missing partNumber or uploadId") 400
        end
      else respond (Text ("Unknown action " +:+ action +:+ " for PUT")) 400
    else if String.eqb (method request) "GET" then
      if negb (String.eqb action "get") then
        respond (Text ("Unknown action " +:+ action +:+ " for GET")) 400
      else
        p <- invoke (OpGet key) (get bucket key) ;;
        object <- await p ;;
        match object with
        | None => respond (Text "Object Not Found") 404
        | Some object =>
            ret {| resp_body := ObjectStream (obj_body object); status := 200;
                   resp_headers := headers_set "etag" (httpEtag object)
                                               (httpMetadata object) |}
        end
    else if String.eqb (method request) "DELETE" then
      if String.eqb action "mpu-abort" then
        match searchParams_get (searchParams url) "uploadId" with
        | None => respond (Text "Missing uploadId") 400
        | Some uploadId =>
            multipartUpload <- resumeMultipartUpload key uploadId ;;
            (* [multipartUpload.abort()] is called inside [try] without
               [await]: its promise is dropped. *)
            caught <- try_catch
                        (invoke (OpAbort key uploadId) (abort bucket key uploadId) ;;;
                         ret None)
                        (fun msg => ret (Some {| resp_body := Text msg; status := 400;
                                                 resp_headers := [] |})) ;;
            match caught with
            | Some response => ret response
            | None => respond NoBody 204
            end
        end
      else if String.eqb action "delete" then
        p <- invoke (OpDelete key) (delete bucket key) ;;
        await p ;;;
        respond NoBody 204
      else respond (Text ("Unknown action " +:+ action +:+ " for DELETE")) 400
    else
      ret {| resp_body := Text "Method Not Allowed"; status := 405;
             resp_headers := [("Allow", "PUT, POST, GET, DELETE")] |}
  end.

(** ** The handler *)

(** [fetch].  [verifyRequest(request.headers, env)] is called without
    [await], so the operand of [!] is the promise it returns. *)
Definition fetch (request : Request) (env : Env) : M Response :=
  authorised <- async (verifyRequest (headers request) env) ;;
  if negb (to_boolean authorised) then respond (Text "Unauthorized") 401
  else route request env.

End Worker.

(** ** The token codec *)

Module TokenCodec.

(** Modelled from the spec: the primitives under ['./jwt'], which is not
    among the sources.  The codec is built from the serialization of the
    header (which names the algorithm) and of a claim set, each already in
    its base64url form, and the asymmetric signature, whose [signature]
    throws on a malformed private key. *)
Record Primitives := {
  encode_header : string -> string;
  decode_header : string -> option string;
  encode_claims : Claims -> string;
  decode_claims : string -> option Claims;
  signature : string -> string -> string -> Result string;
  signature_valid : string -> string -> string -> string -> bool
}.

(** Modelled from the spec: a segment of a compact token (section 6) holds
    no dot. *)
Fixpoint dot_free (s : string) : bool :=
  match s with
  | EmptyString => true
  | String c rest => negb (Ascii.eqb c ".") && dot_free rest
  end.

(** Modelled from the spec: the dot-separated segments of a token. *)
Fixpoint split_dots (s : string) : list string :=
  match s with
  | EmptyString => [""]
  | String c rest =>
      if Ascii.eqb c "." then "" :: split_dots rest
      else match split_dots rest with
           | segment :: segments => String c segment :: segments
           | [] => [String c ""]
           end
  end.

Section Codec.

Variable prim : Primitives.

(** Modelled from the spec: [sign] of ['./jwt'], which is not among the
    sources.  Section 4.1: a deterministic serialization of the claims plus
    a detached signature under the configured algorithm, failing with a
    signing error on a malformed key; section 6: three dot-separated
    segments, header, payload and signature. *)
Definition sign (claims : Claims) (privateKey algorithm : string) : Result string :=
  let signing_input := encode_header prim algorithm +:+ "." +:+ encode_claims prim claims in
  match signature prim privateKey algorithm signing_input with
  | Ok sig => Ok (signing_input +:+ "." +:+ sig)
  | Throw msg => Throw msg
  end.

(** Modelled from the spec: [verify] of ['./jwt'], which is not among the
    sources.  Section 4.1: it checks the signature and the structure of the
    payload, and returns a failure, not an exception, on a malformed token,
    an algorithm mismatch, a signature mismatch or an unparseable
    payload. *)
Definition verify (token publicKey algorithm : string) : option JwtData :=
  match split_dots token with
  | [header; body; sig] =>
      match decode_header prim header with
      | Some alg =>
          if negb (String.eqb alg algorithm) then None
          else if negb (signature_valid prim publicKey algorithm
                                        (header +:+ "." +:+ body) sig) then None
          else match decode_claims prim body with
               | Some claims => Some {| payload := claims |}
               | None => None
               end
      | None => None
      end
  | _ => None
  end.

(** Modelled from the spec: what section 4.1 and section 6 assume of the
    primitives under ['./jwt']: segments are dot-free and the
    two serializations can be read back. *)
Record Lawful : Prop := {
  header_dot_free : forall alg, dot_free (encode_header prim alg) = true;
  claims_dot_free : forall c, dot_free (encode_claims prim c) = true;
  signature_dot_free : forall key alg input sig,
    signature prim key alg input = Ok sig -> dot_free sig = true;
  header_read_back : forall alg, decode_header prim (encode_header prim alg) = Some alg;
  claims_read_back : forall c, decode_claims prim (encode_claims prim c) = Some c
}.

(** Modelled from the spec: the "matching keys" of section 8.  A private
    and a public key match when the private key signs every
    input and the public key accepts each of these signatures. *)
Definition KeyPair (privateKey publicKey : string) : Prop :=
  forall alg input,
    exists sig, signature prim privateKey alg input = Ok sig
                /\ signature_valid prim publicKey alg input sig = true.

(** Modelled from the spec: the "matching key pair and algorithm" of
    section 8, for one algorithm.  Under [algorithm], the private key signs
    every input and the public key accepts each of these signatures. *)
Definition KeyPairUnder (privateKey publicKey algorithm : string) : Prop :=
  forall input,
    exists sig, signature prim privateKey algorithm input = Ok sig
                /\ signature_valid prim publicKey algorithm input sig = true.

End Codec.

End TokenCodec.

(** ** Stand-ins for running the definitions *)

(** A small wire format and a stand-in signature, to run the codec and the
    handler on concrete tokens.  The signature is a keyed tag that anyone
    holding the key name can rebuild: it plays the part of a signature
    scheme in examples only. *)
Module Sample.

Import TokenCodec.

(** Text: each character is written after a [c], a dot as [d], the end as
    [e]. *)
Fixpoint put_string (s rest : string) : string :=
  match s with
  | EmptyString => String "e" rest
  | String c s' =>
      if Ascii.eqb c "." then String "d" (put_string s' rest)
      else String "c" (String c (put_string s' rest))
  end.

Fixpoint take_string (input : string) : option (string * string) :=
  match input with
  | String "e" rest => Some ("", rest)
  | String "d" rest =>
      match take_string rest with
      | Some (s, rest') => Some (String "." s, rest')
      | None => None
      end
  | String "c" (String c rest) =>
      if Ascii.eqb c "." then None
      else match take_string rest with
           | Some (s, rest') => Some (String c s, rest')
           | None => None
           end
  | _ => None
  end.

(** Positive numbers by their bits, lowest first. *)
Fixpoint put_positive (p : positive) (rest : string) : string :=
  match p with
  | xH => String "e" rest
  | xO q => String "0" (put_positive q rest)
  | xI q => String "1" (put_positive q rest)
  end.

Fixpoint take_positive (input : string) : option (positive * string) :=
  match input with
  | String "e" rest => Some (xH, rest)
  | String "0" rest =>
      match take_positive rest with
      | Some (q, rest') => Some (xO q, rest')
      | None => None
      end
  | String "1" rest =>
      match take_positive rest with
      | Some (q, rest') => Some (xI q, rest')
      | None => None
      end
  | _ => None
  end.

Definition put_Z (z : Z) (rest : string) : string :=
  match z with
  | Z0 => String "z" rest
  | Zpos p => String "p" (put_positive p rest)
  | Zneg p => String "m" (put_positive p rest)
  end.

Definition take_Z (input : string) : option (Z * string) :=
  match input with
  | String "z" rest => Some (Z0, rest)
  | String "p" rest =>
      match take_positive rest with
      | Some (p, rest') => Some (Zpos p, rest')
      | None => None
      end
  | String "m" rest =>
      match take_positive rest with
      | Some (p, rest') => Some (Zneg p, rest')
      | None => None
      end
  | _ => None
  end.

(** A list of texts: [i] before each item, [n] at the end. *)
Fixpoint put_strings (l : list string) (rest : string) : string :=
  match l with
  | [] => String "n" rest
  | s :: l' => String "i" (put_string s (put_strings l' rest))
  end.

(** [fuel] bounds the number of items read. *)
Fixpoint take_strings (fuel : nat) (input : string) : option (list string * string) :=
  match input with
  | String "n" rest => Some ([], rest)
  | String "i" rest =>
      match fuel with
      | O => None
      | S fuel' =>
          match take_string rest with
          | Some (s, rest') =>
              match take_strings fuel' rest' with
              | Some (l, rest'') => Some (s :: l, rest'')
              | None => None
              end
          | None => None
          end
      end
  | _ => None
  end.

Definition put_status (st : OrderStatus) (rest : string) : string :=
  String (match st with
          | created => "0" | accepted => "1" | queued => "2" | work_started => "3"
          | work_completed => "4" | delivered => "5" | pending => "6"
          | declined => "7"
          end) rest.

Definition take_status (input : string) : option (OrderStatus * string) :=
  match input with
  | String "0" rest => Some (created, rest)
  | String "1" rest => Some (accepted, rest)
  | String "2" rest => Some (queued, rest)
  | String "3" rest => Some (work_started, rest)
  | String "4" rest => Some (work_completed, rest)
  | String "5" rest => Some (delivered, rest)
  | String "6" rest => Some (pending, rest)
  | String "7" rest => Some (declined, rest)
  | _ => None
  end.

Definition put_optional (o : option string) (rest : string) : string :=
  match o with
  | Some s => String "v" (put_string s rest)
  | None => String "u" rest
  end.

Definition take_optional (input : string) : option (option string * string) :=
  match input with
  | String "u" rest => Some (None, rest)
  | String "v" rest =>
      match take_string rest with
      | Some (s, rest') => Some (Some s, rest')
      | None => None
      end
  | _ => None
  end.

Definition put_claims (c : Claims) : string :=
  put_optional (aud c)
    (put_string (realm c)
      (put_string (sub c)
        (put_string (client_id (may_act c))
          (put_Z (nbf c)
            (put_Z (iat c)
              (put_string (orderId (addl c))
                (put_string (orderCartId (addl c))
                  (put_strings (orderSongIds (addl c))
                    (put_status (orderStatus (addl c)) ""))))))))).

Definition take_claims (input : string) : option Claims :=
  '(a, r) ← take_optional input;
  '(rl, r) ← take_string r;
  '(sb, r) ← take_string r;
  '(cid, r) ← take_string r;
  '(nb, r) ← take_Z r;
  '(ia, r) ← take_Z r;
  '(oid, r) ← take_string r;
  '(cart, r) ← take_string r;
  '(songs, r) ← take_strings (String.length r) r;
  '(st, r) ← take_status r;
  if String.eqb r "" then
    Some {| aud := a; realm := rl; sub := sb; may_act := {| client_id := cid |};
            nbf := nb; iat := ia;
            addl := {| orderId := oid; orderCartId := cart; orderSongIds := songs;
                       orderStatus := st |} |}
  else None.

Definition take_header (input : string) : option string :=
  match take_string input with
  | Some (alg, "") => Some alg
  | _ => None
  end.

(** [strip_prefix p s]: [s] without its prefix [p]. *)
Fixpoint strip_prefix (p s : string) : option string :=
  match p, s with
  | EmptyString, _ => Some s
  | String a p', String b s' => if Ascii.eqb a b then strip_prefix p' s' else None
  | String _ _, EmptyString => None
  end.

Definition tag (name alg input : string) : string :=
  put_string name (put_string alg (put_string input "")).

(** Keys come in pairs ["private:" name] and ["public:" name]. *)
Definition primitives : Primitives := {|
  encode_header := fun alg => put_string alg "";
  decode_header := take_header;
  encode_claims := put_claims;
  decode_claims := take_claims;
  signature := fun key alg input =>
    match strip_prefix "private:" key with
    | Some name => Ok (tag name alg input)
    | None => Throw "malformed key"
    end;
  signature_valid := fun key alg input sig =>
    match strip_prefix "public:" key with
    | Some name => String.eqb sig (tag name alg input)
    | None => false
    end
|}.

(** A cookie header holding one [name=value] pair. *)
Fixpoint split_equals (s : string) : option (string * string) :=
  match s with
  | EmptyString => None
  | String c rest =>
      if Ascii.eqb c "=" then Some ("", rest)
      else match split_equals rest with
           | Some (k, v) => Some (String c k, v)
           | None => None
           end
  end.

Definition one_cookie (line : string) : gmap string string :=
  match split_equals line with
  | Some (k, v) => {[ k := v ]}
  | None => ∅
  end.

(** ASCII white space. *)
Definition is_white_space (c : ascii) : bool :=
  let n := Z.of_N (N_of_ascii c) in
  (n =? 9) || (n =? 10) || (n =? 11) || (n =? 12) || (n =? 13) || (n =? 32).

Fixpoint trim_start (s : string) : string :=
  match s with
  | String c rest => if is_white_space c then trim_start rest else s
  | EmptyString => s
  end.

(** The value of a character as a digit, up to radix 36. *)
Definition digit_value (c : ascii) : option Z :=
  let n := Z.of_N (N_of_ascii c) in
  if (48 <=? n) && (n <=? 57) then Some (n - 48)
  else if (97 <=? n) && (n <=? 122) then Some (n - 97 + 10)
  else if (65 <=? n) && (n <=? 90) then Some (n - 65 + 10)
  else None.

(** The value of the longest prefix of radix-[radix] digits; [acc] is
    [None] as long as no digit was read. *)
Fixpoint parse_digits (radix : Z) (acc : option Z) (s : string) : option Z :=
  match s with
  | String c rest =>
      match digit_value c with
      | Some d =>
          if d <? radix then parse_digits radix (Some (default 0 acc * radix + d)) rest
          else acc
      | None => acc
      end
  | EmptyString => acc
  end.

(** A stand-in for [parseInt] on short ASCII texts: leading white space, a
    sign, an optional [0x] prefix, then the longest run of digits, read as
    an exact integer; [NaN] when that run is empty.  It is not JavaScript's
    function: it does not round to a double, never gives an infinity and
    knows ASCII white space only. *)
Definition leading_integer (s : string) : JsNumber :=
  let s := trim_start s in
  let '(sign, s) :=
    match s with
    | String "-" rest => (-1, rest)
    | String "+" rest => (1, rest)
    | _ => (1, s)
    end in
  let '(radix, s) :=
    match s with
    | String "0" (String "x" rest) => (16, rest)
    | String "0" (String "X" rest) => (16, rest)
    | _ => (10, s)
    end in
  match parse_digits radix None s with
  | Some v => Num (sign * v)
  | None => NaN
  end.

(** A platform whose verification service answers [remote]. *)
Definition platform (remote : Result HttpResponse) : Platform := {|
  cookie_parse := one_cookie;
  stringifyCookie := fun value => Ok ("jwt=" +:+ value);
  jwt_verify := verify primitives;
  jwt_sign := sign primitives;
  Date_now := 1700000000000;
  global_fetch := fun _ _ => remote;
  JSON_parse := fun text =>
    if String.eqb text "null" then Ok JNull
    else if String.eqb text "[]" then Ok (JArray [])
    else Throw "Unexpected token";
  parseInt := leading_integer
|}.

Definition remote_ok : Result HttpResponse :=
  Ok {| http_status := 200;
        http_json := Ok (JObject [("message", JString "OK")]) |}.

Definition remote_status (code : Z) : Result HttpResponse :=
  Ok {| http_status := code;
        http_json := Ok (JObject [("message", JString "order not valid")]) |}.

Definition remote_down : Result HttpResponse := Throw "connection reset".

Definition song : R2ObjectBody :=
  {| obj_body := "RIFF"; httpEtag := "etag-song";
     httpMetadata := [("content-type", "audio/wav")] |}.

Definition no_such_upload : string := "The specified multipart upload does not exist.".

(** A bucket that knows one object and one open upload. *)
Definition bucket : R2Bucket := {|
  createMultipartUpload := fun key => Ok {| mpu_key := key; mpu_uploadId := "upload-1" |};
  uploadPart := fun key uploadId n content =>
    if String.eqb uploadId "upload-1" then Ok {| partNumber := n; etag := "etag-part" |}
    else Throw no_such_upload;
  complete := fun key uploadId parts =>
    if String.eqb uploadId "upload-1" then Ok song else Throw no_such_upload;
  abort := fun key uploadId =>
    if String.eqb uploadId "upload-1" then Ok tt else Throw no_such_upload;
  get := fun key => if String.eqb key "song.wav" then Ok (Some song) else Ok None;
  delete := fun key => Ok tt
|}.

Definition env : Env := {|
  BUCKET_NAME := bucket;
  COOKIE_NAME := "jwt";
  AUTHORIZED_SUBJECT := "conveyor";
  AUTHORIZED_REALM := "orders";
  AUTHORIZED_CLIENT_ID := "storefront";
  aUTHORIZED_AUDIENCE := "upload-worker";
  CLOUDFLARE_WORKER_PRIVATE_KEY := "private:worker";
  CLOUDFLARE_WORKER_PUBLIC_KEY := "public:worker";
  CLOUDFLARE_WORKER_AUD := "conveyor";
  CLOUDFLARE_WORKER_REALM := "orders";
  CLOUDFLARE_WORKER_SUB := "upload-worker";
  CLOUDFLARE_WORKER_CLIENT_ID := "worker";
  CLOUDFLARE_WORKER_SIGNING_ALGO := "RS512";
  CONVEYOR_API_URL := "https://conveyor.example";
  CONVEYOR_API_VERSION := "v1"
|}.

Definition order : OrderMetadata :=
  {| orderId := "order-7"; orderCartId := "cart.3";
     orderSongIds := ["song-a"; "song-b"]; orderStatus := accepted |}.

(** The claims of the one authorised caller of [env]. *)
Definition caller_claims : Claims :=
  {| aud := Some "upload-worker"; realm := "orders"; sub := "conveyor";
     may_act := {| client_id := "storefront" |};
     nbf := 1699999999000; iat := 1699999999000; addl := order |}.

(** The same claims under another subject. *)
Definition stranger_claims : Claims :=
  {| aud := Some "upload-worker"; realm := "orders"; sub := "someone-else";
     may_act := {| client_id := "storefront" |};
     nbf := 1699999999000; iat := 1699999999000; addl := order |}.

Definition token_of (c : Claims) : string :=
  match sign primitives c "private:worker" "RS512" with
  | Ok token => token
  | Throw _ => ""
  end.

Definition cookie_headers (token : string) : Headers :=
  {[ "cookie" := "jwt=" +:+ token ]}.

Definition request (m path : string) (params : list (string * string))
    (hs : Headers) (content : option string) : Request :=
  {| method := m; url := {| pathname := path; searchParams := params |};
     headers := hs; body := content |}.

End Sample.

(** ** Predicates used in the statements *)

(** The request carries no cookie of the given name: there is no [cookie]
    header, or the parsed header has no such entry. *)
Definition lacks_cookie (pf : Platform) (name : string) (hs : Headers) : Prop :=
  match hs !! "cookie" with
  | Some line => cookie_parse pf line !! name = None
  | None => True
  end.

(** The request carries the token in the cookie of the given name. *)
Definition carries_token (pf : Platform) (name : string) (hs : Headers)
    (token : string) : Prop :=
  exists line, hs !! "cookie" = Some line /\ cookie_parse pf line !! name = Some token.

(** The verified claims differ from the configured identity in one of the
    four fields. *)
Definition identity_mismatch (c : Claims) (env : Env) : Prop :=
  sub c <> AUTHORIZED_SUBJECT env
  \/ realm c <> AUTHORIZED_REALM env
  \/ aud c <> Some (aUTHORIZED_AUDIENCE env)
  \/ client_id (may_act c) <> AUTHORIZED_CLIENT_ID env.

(** The calls to the verification service in a log. *)
Definition is_remote_call (e : Event) : bool :=
  match e with
  | EvFetch _ _ => true
  | _ => false
  end.
Definition remote_calls (log : list Event) : list Event := List.filter is_remote_call log.

(** The bucket operations in a log. *)
Definition store_ops (log : list Event) : list StoreOp :=
  flat_map (fun e => match e with EvStore op => [op] | _ => [] end) log.


(** Which key and algorithm a codec call may be handed. *)
Definition key_use (env : Env) (e : Event) : Prop :=
  match e with
  | EvVerify _ key alg =>
      key = CLOUDFLARE_WORKER_PUBLIC_KEY env /\ alg = CLOUDFLARE_WORKER_SIGNING_ALGO env
  | EvSign _ key alg =>
      key = CLOUDFLARE_WORKER_PRIVATE_KEY env /\ alg = CLOUDFLARE_WORKER_SIGNING_ALGO env
  | _ => True
  end.

(** A decimal integer literal: an optional sign, then digits only. *)
Fixpoint all_digits (s : string) : bool :=
  match s with
  | EmptyString => true
  | String c rest =>
      let n := Z.of_N (N_of_ascii c) in
      (48 <=? n) && (n <=? 57) && all_digits rest
  end.

Definition is_integer_literal (s : string) : bool :=
  match s with
  | String "-" rest => negb (String.eqb rest "") && all_digits rest
  | String "+" rest => negb (String.eqb rest "") && all_digits rest
  | _ => negb (String.eqb s "") && all_digits s
  end.

(** The three ways in which [verifyRequest] runs. *)
Inductive VerifyRun (pf : Platform) (hs : Headers) (env : Env) : Result bool * list Event -> Prop :=
| run_no_token :
    to_boolean (extractJwtCookie pf (COOKIE_NAME env) hs) = false ->
    VerifyRun pf hs env (Ok false, [])
| run_rejected token :
    extractJwtCookie pf (COOKIE_NAME env) hs = Some token ->
    (jwt_verify pf token (CLOUDFLARE_WORKER_PUBLIC_KEY env)
                (CLOUDFLARE_WORKER_SIGNING_ALGO env) = None
     \/ exists verified,
          jwt_verify pf token (CLOUDFLARE_WORKER_PUBLIC_KEY env)
                     (CLOUDFLARE_WORKER_SIGNING_ALGO env) = Some verified
          /\ identity_mismatch (payload verified) env) ->
    VerifyRun pf hs env (Ok false,
                    [EvVerify token (CLOUDFLARE_WORKER_PUBLIC_KEY env)
                              (CLOUDFLARE_WORKER_SIGNING_ALGO env)])
| run_remote token verified r log' :
    extractJwtCookie pf (COOKIE_NAME env) hs = Some token ->
    jwt_verify pf token (CLOUDFLARE_WORKER_PUBLIC_KEY env)
               (CLOUDFLARE_WORKER_SIGNING_ALGO env) = Some verified ->
    ~ identity_mismatch (payload verified) env ->
    executeConveyorVerificationRequest pf (addl (payload verified)) env
      [EvVerify token (CLOUDFLARE_WORKER_PUBLIC_KEY env)
                (CLOUDFLARE_WORKER_SIGNING_ALGO env)] = (Ok r, log') ->
    VerifyRun pf hs env (Ok (negb (isApiError r)), log').


(** ** Further predicates and sample data *)

(** An object of [executeConveyorVerificationRequest] has exactly one of
    its two optional properties: [error], or [data] with status 200. *)
Definition one_sided (r : ApiResult) : Prop :=
  (error r <> None /\ data r = None)
  \/ (error r = None /\ data r <> None /\ api_status r = 200).

(** The actions the router knows for a method. *)
Definition known_action (m action : string) : bool :=
  if String.eqb m "POST" then
    String.eqb action "mpu-create" || String.eqb action "mpu-complete"
  else if String.eqb m "PUT" then String.eqb action "mpu-uploadpart"
  else if String.eqb m "GET" then String.eqb action "get"
  else if String.eqb m "DELETE" then
    String.eqb action "mpu-abort" || String.eqb action "delete"
  else false.

(** The object key a bucket operation addresses. *)
Definition op_key (op : StoreOp) : string :=
  match op with
  | OpCreateMultipartUpload key => key
  | OpResumeMultipartUpload key _ => key
  | OpUploadPart key _ _ _ => key
  | OpComplete key _ _ => key
  | OpAbort key _ => key
  | OpGet key => key
  | OpDelete key => key
  end.

(** The operations that reach the store over the network:
    [resumeMultipartUpload] only builds a handle. *)
Definition is_remote_op (op : StoreOp) : bool :=
  match op with
  | OpResumeMultipartUpload _ _ => false
  | _ => true
  end.

(** The bucket operations of one request: nothing, one operation, or a
    [resumeMultipartUpload] followed by one operation sent to the store. *)
Definition resume_then_operation (ops : list StoreOp) : Prop :=
  match ops with
  | [] => True
  | [_] => True
  | [OpResumeMultipartUpload _ _; op] => is_remote_op op = true
  | _ => False
  end.

(** The codec calls of a log. *)
Definition is_verify_call (e : Event) : bool :=
  match e with
  | EvVerify _ _ _ => true
  | _ => false
  end.

Module Cases.

Import Sample.

(** [Sample.env] with a private key that the stand-in signature refuses. *)
Definition env_bad_key : Env := {|
  BUCKET_NAME := bucket;
  COOKIE_NAME := "jwt";
  AUTHORIZED_SUBJECT := "conveyor";
  AUTHORIZED_REALM := "orders";
  AUTHORIZED_CLIENT_ID := "storefront";
  aUTHORIZED_AUDIENCE := "upload-worker";
  CLOUDFLARE_WORKER_PRIVATE_KEY := "not a key";
  CLOUDFLARE_WORKER_PUBLIC_KEY := "public:worker";
  CLOUDFLARE_WORKER_AUD := "conveyor";
  CLOUDFLARE_WORKER_REALM := "orders";
  CLOUDFLARE_WORKER_SUB := "upload-worker";
  CLOUDFLARE_WORKER_CLIENT_ID := "worker";
  CLOUDFLARE_WORKER_SIGNING_ALGO := "RS512";
  CONVEYOR_API_URL := "https://conveyor.example";
  CONVEYOR_API_VERSION := "v1"
|}.

(** A verification service that answers 200 with a body that is not
    JSON. *)
Definition remote_garbled : Result HttpResponse :=
  Ok {| http_status := 200; http_json := Throw "Unexpected token < in JSON" |}.

(** A bucket whose every operation is rejected. *)
Definition bucket_down : R2Bucket := {|
  createMultipartUpload := fun key => Throw "bucket unavailable";
  uploadPart := fun key uploadId n content => Throw "bucket unavailable";
  complete := fun key uploadId parts => Throw "bucket unavailable";
  abort := fun key uploadId => Throw "bucket unavailable";
  get := fun key => Throw "bucket unavailable";
  delete := fun key => Throw "bucket unavailable"
|}.

Definition env_bucket_down : Env := {|
  BUCKET_NAME := bucket_down;
  COOKIE_NAME := "jwt";
  AUTHORIZED_SUBJECT := "conveyor";
  AUTHORIZED_REALM := "orders";
  AUTHORIZED_CLIENT_ID := "storefront";
  aUTHORIZED_AUDIENCE := "upload-worker";
  CLOUDFLARE_WORKER_PRIVATE_KEY := "private:worker";
  CLOUDFLARE_WORKER_PUBLIC_KEY := "public:worker";
  CLOUDFLARE_WORKER_AUD := "conveyor";
  CLOUDFLARE_WORKER_REALM := "orders";
  CLOUDFLARE_WORKER_SUB := "upload-worker";
  CLOUDFLARE_WORKER_CLIENT_ID := "worker";
  CLOUDFLARE_WORKER_SIGNING_ALGO := "RS512";
  CONVEYOR_API_URL := "https://conveyor.example";
  CONVEYOR_API_VERSION := "v1"
|}.

Definition pf : Platform := platform remote_ok.

Definition caller_headers : Headers := cookie_headers (token_of caller_claims).

(** The token that [signJwt] makes for [order], and its cookie. *)
Definition outbound_jwt : string :=
  match fst (run (signJwt pf order env)) with
  | Ok jwt => jwt
  | Throw _ => ""
  end.

Definition outbound_cookie : string := "jwt=" +:+ outbound_jwt.

(** The response part of a verification outcome. *)
Definition response_of (remote : Result HttpResponse) : HttpResponse :=
  match remote with
  | Ok response => response
  | Throw _ => {| http_status := 0; http_json := Throw "" |}
  end.

End Cases.

(** * Properties *)

Ltac run_monad :=
  unfold run, bind, ret, throw, lift, emit, try_catch, caught, await, async, invoke,
    respond, resumeMultipartUpload in *; simpl in *.

(** ** Authorisation *)

Section VerifyFacts.

Variable pf : Platform.

Lemma extractJwtCookie_lacking name hs :
  lacks_cookie pf name hs -> extractJwtCookie pf name hs = None.
Proof.
  unfold lacks_cookie, extractJwtCookie.
  destruct (hs !! "cookie") as [line|] eqn:E; simpl; [|reflexivity].
  intros ->. destruct (negb _); reflexivity.
Qed.

(** The verification request never throws: every exception ends in the
    [catch] block. *)
Lemma execute_returns meta env log :
  exists r evs,
    executeConveyorVerificationRequest pf meta env log = (Ok r, log ++ evs)
    /\ Forall (key_use env) evs.
Proof.
  unfold executeConveyorVerificationRequest, signJwt, sign, http_get.
  run_monad.
  destruct (jwt_sign pf _ _ _) as [jwt|msg]; simpl.
  2:{ eexists _, [_]. split; [reflexivity|]. repeat constructor. }
  destruct (stringifyCookie pf jwt) as [cookieHeader|msg]; simpl.
  2:{ eexists _, [_]. split; [reflexivity|]. repeat constructor. }
  rewrite <- app_assoc. simpl.
  destruct (global_fetch pf _ _) as [response|msg]; simpl.
  2:{ eexists _, [_; _]. split; [reflexivity|]. repeat constructor. }
  destruct (http_status response =? 200); simpl;
    destruct (http_json response); simpl;
    (eexists _, [_; _]; split; [reflexivity|repeat constructor]).
Qed.



Lemma strict_neq_false a b : strict_neq a b = false <-> a = b.
Proof.
  unfold strict_neq. rewrite negb_false_iff. apply String.eqb_eq.
Qed.

Lemma strict_neq_undef_false a b : strict_neq_undef a b = false <-> a = Some b.
Proof.
  destruct a as [a|]; simpl.
  - rewrite strict_neq_false. split; congruence.
  - split; discriminate.
Qed.

(** The identity check of [verifyRequest] decides [identity_mismatch]. *)
Lemma identity_check c env :
  strict_neq (client_id (may_act c)) (AUTHORIZED_CLIENT_ID env)
  || strict_neq (realm c) (AUTHORIZED_REALM env)
  || strict_neq_undef (aud c) (aUTHORIZED_AUDIENCE env)
  || strict_neq (sub c) (AUTHORIZED_SUBJECT env) = false
  <-> ~ identity_mismatch c env.
Proof.
  unfold identity_mismatch.
  rewrite !orb_false_iff, !strict_neq_false, strict_neq_undef_false.
  split.
  - intros [[[H1 H2] H3] H4] [H|[H|[H|H]]]; contradiction.
  - intros H.
    destruct (decide (client_id (may_act c) = AUTHORIZED_CLIENT_ID env));
      [|exfalso; apply H; auto].
    destruct (decide (realm c = AUTHORIZED_REALM env));
      [|exfalso; apply H; auto].
    destruct (decide (sub c = AUTHORIZED_SUBJECT env));
      [|exfalso; apply H; auto].
    destruct (decide (aud c = Some (aUTHORIZED_AUDIENCE env)));
      [|exfalso; apply H; auto].
    auto.
Qed.

Lemma verifyRequest_runs hs env : VerifyRun pf hs env (run (verifyRequest pf hs env)).
Proof.
  unfold verifyRequest, verify.
  destruct (to_boolean (extractJwtCookie pf (COOKIE_NAME env) hs)) eqn:Htoken; simpl.
  2:{ apply run_no_token. exact Htoken. }
  destruct (extractJwtCookie pf (COOKIE_NAME env) hs) as [token|] eqn:Hcookie;
    [|discriminate].
  run_monad.
  destruct (jwt_verify pf token _ _) as [verified|] eqn:Hverify; simpl.
  2:{ apply (run_rejected _ _ _ token); auto. }
  match goal with
  | |- context [if ?c then _ else _] => destruct c eqn:Hcheck
  end.
  - apply (run_rejected _ _ _ token); auto. right. exists verified. split; auto.
    destruct (decide (identity_mismatch (payload verified) env)) as [|Hno];
      [assumption|].
    apply identity_check in Hno. congruence.
  - apply identity_check in Hcheck.
    destruct (execute_returns (addl (payload verified)) env
                [EvVerify token (CLOUDFLARE_WORKER_PUBLIC_KEY env)
                          (CLOUDFLARE_WORKER_SIGNING_ALGO env)])
      as (r & evs & Hrun & _).
    rewrite Hrun.
    pose proof (run_remote pf hs env token verified r _ Hcookie Hverify Hcheck Hrun)
      as Hthird.
    destruct (isApiError r); exact Hthird.
Qed.

End VerifyFacts.

(** [verifyRequest] always settles to a boolean: it never throws. *)
Lemma verifyRequest_total pf hs env :
  exists b log, run (verifyRequest pf hs env) = (Ok b, log).
Proof.
  destruct (verifyRequest_runs pf hs env); eauto.
Qed.

(** C2: a token that passes signature verification but whose claims differ
    from the configured identity in one of [sub], [realm], [aud] or
    [may_act.client_id] makes [verifyRequest] return [false], and the log
    of the run holds no call to the verification service. *)
Theorem C2_identity_mismatch_denies pf hs env token verified :
  carries_token pf (COOKIE_NAME env) hs token ->
  jwt_verify pf token (CLOUDFLARE_WORKER_PUBLIC_KEY env)
             (CLOUDFLARE_WORKER_SIGNING_ALGO env) = Some verified ->
  identity_mismatch (payload verified) env ->
  exists log,
    run (verifyRequest pf hs env) = (Ok false, log) /\ remote_calls log = [].
Proof.
  intros (line & Hline & Hparsed) Hverify Hmismatch.
  destruct (verifyRequest_runs pf hs env)
    as [Hnone | token' Hcookie' Hrej | token' verified' r log' Hcookie' Hverify' Hsame Hrun].
  - exists []. split; reflexivity.
  - eexists. split; reflexivity.
  - exfalso. apply Hsame.
    unfold extractJwtCookie in Hcookie'. rewrite Hline in Hcookie'.
    destruct (negb (to_boolean (Some line))); [discriminate|].
    simpl in Hcookie'. rewrite Hparsed in Hcookie'. injection Hcookie' as <-.
    rewrite Hverify in Hverify'. injection Hverify' as <-.
    exact Hmismatch.
Qed.

(** C3: when the request carries no cookie of the configured name,
    [verifyRequest] returns [false] and its log is empty: the token codec
    and the verification service are not called. *)
Theorem C3_missing_cookie_denies pf hs env :
  lacks_cookie pf (COOKIE_NAME env) hs ->
  run (verifyRequest pf hs env) = (Ok false, []).
Proof.
  intros Hlacks. unfold run, verifyRequest.
  rewrite (extractJwtCookie_lacking pf _ _ Hlacks). reflexivity.
Qed.


(** C7 (as amended): in every run of [verifyRequest], each verification of
    a token is handed [CLOUDFLARE_WORKER_PUBLIC_KEY] and each signature
    [CLOUDFLARE_WORKER_PRIVATE_KEY], both with
    [CLOUDFLARE_WORKER_SIGNING_ALGO]. *)
Theorem C7_key_handles pf hs env :
  Forall (key_use env) (snd (run (verifyRequest pf hs env))).
Proof.
  destruct (verifyRequest_runs pf hs env)
    as [Hnone | token Hcookie Hrej | token verified r log' Hcookie Hverify Hsame Hrun];
    simpl.
  - constructor.
  - repeat constructor.
  - destruct (execute_returns pf (addl (payload verified)) env
                [EvVerify token (CLOUDFLARE_WORKER_PUBLIC_KEY env)
                          (CLOUDFLARE_WORKER_SIGNING_ALGO env)])
      as (r' & evs & Hrun' & Hkeys).
    rewrite Hrun in Hrun'. injection Hrun' as _ ->.
    constructor; [split; reflexivity | exact Hkeys].
Qed.

(** ** The handler and the router *)

(** The operand of [!] in [fetch] is a promise, which is truthy: the
    handler goes on to the router whatever [verifyRequest] settles to. *)
Lemma fetch_is_route pf request env log :
  fetch pf request env log = route pf request env log.
Proof.
  unfold fetch, async, bind.
  destruct (verifyRequest pf (headers request) env []) as [r evs].
  reflexivity.
Qed.

(** The handler never answers 401. *)
Lemma fetch_never_401 pf request env response log :
  run (fetch pf request env) = (Ok response, log) -> status response <> 401.
Proof.
  unfold run. rewrite fetch_is_route. unfold route, request_json.
  run_monad.
  repeat match goal with
         | |- context [match ?x with _ => _ end] =>
             lazymatch x with
             | context [match _ with _ => _ end] => fail
             | _ => destruct x; simpl
             end
         end;
    intros [= <- <-]; simpl; lia.
Qed.

(** [mpu-complete] reads the body with [request.json()] outside of the
    [try] block: with a [null] body the handler throws. *)
Lemma complete_without_body pf request env uploadId :
  method request = "POST" ->
  searchParams_get (searchParams (url request)) "action" = Some "mpu-complete" ->
  searchParams_get (searchParams (url request)) "uploadId" = Some uploadId ->
  body request = None ->
  run (fetch pf request env)
  = (Throw "Unexpected end of JSON input",
     [EvStore (OpResumeMultipartUpload (slice1 (pathname (url request))) uploadId)]).
Proof.
  intros Hmethod Haction Hupload Hbody.
  unfold run. rewrite fetch_is_route. unfold route, request_json.
  rewrite Haction, Hmethod, Hupload, Hbody. reflexivity.
Qed.

(** [mpu-abort] answers 204 whatever the promise of [abort()] settles
    to. *)
Lemma abort_ignores_outcome pf request env uploadId :
  method request = "DELETE" ->
  searchParams_get (searchParams (url request)) "action" = Some "mpu-abort" ->
  searchParams_get (searchParams (url request)) "uploadId" = Some uploadId ->
  run (fetch pf request env)
  = (Ok {| resp_body := NoBody; status := 204; resp_headers := [] |},
     [EvStore (OpResumeMultipartUpload (slice1 (pathname (url request))) uploadId);
      EvStore (OpAbort (slice1 (pathname (url request))) uploadId)]).
Proof.
  intros Hmethod Haction Hupload.
  unfold run. rewrite fetch_is_route. unfold route.
  rewrite Haction, Hmethod, Hupload. reflexivity.
Qed.

(** The stand-in for [parseInt] on short texts. *)
Example leading_integer_samples :
  Sample.leading_integer "7" = Num 7 /\ Sample.leading_integer "1.5" = Num 1
  /\ Sample.leading_integer "12abc" = Num 12
  /\ Sample.leading_integer " 0x1f" = Num 31
  /\ Sample.leading_integer "-3" = Num (-3)
  /\ Sample.leading_integer "abc" = NaN /\ Sample.leading_integer "" = NaN.
Proof.
  repeat split; reflexivity.
Qed.

(** C1 (the code departs from it): a request without any cookie is denied
    by [verifyRequest], yet [fetch] answers it from the bucket with status
    200 instead of 401. *)
Theorem C1_unauthorised_request_is_served :
  let request := Sample.request "GET" "/song.wav" [("action", "get")] ∅ None in
  run (verifyRequest (Sample.platform Sample.remote_ok) (headers request) Sample.env)
  = (Ok false, [])
  /\ run (fetch (Sample.platform Sample.remote_ok) request Sample.env)
     = (Ok {| resp_body := ObjectStream "RIFF"; status := 200;
              resp_headers := [("content-type", "audio/wav"); ("etag", "etag-song")] |},
        [EvStore (OpGet "song.wav")]).
Proof.
  split; vm_compute; reflexivity.
Qed.

(** C5, as stated, fails: the part number [1.5] is not an integer, and the
    handler still invokes [uploadPart], with part number 1, and answers
    200. *)
Lemma C5_counterexample :
  is_integer_literal "1.5" = false
  /\ run (fetch (Sample.platform Sample.remote_ok)
            (Sample.request "PUT" "/song.wav"
               [("action", "mpu-uploadpart"); ("uploadId", "upload-1");
                ("partNumber", "1.5")] ∅ (Some "bytes"))
            Sample.env)
     = (Ok {| resp_body := JsonText (JObject [("partNumber", JNumber 1);
                                              ("etag", JString "etag-part")]);
              status := 200; resp_headers := [] |},
        [EvStore (OpResumeMultipartUpload "song.wav" "upload-1");
         EvStore (OpUploadPart "song.wav" "upload-1" (Num 1) "bytes")]).
Proof.
  split; vm_compute; reflexivity.
Qed.

(** C5 (as amended): when [partNumber], [uploadId] and a body are present,
    the handler invokes [uploadPart] with the value that [parseInt] returns
    for the part number, whatever the text and whatever the value; the
    answer is 400 with the store's message when the store rejects the
    part, and the uploaded part with status 200 otherwise. *)
Theorem C5_uploadpart_passes_parseInt_to_store pf request env partNumberString uploadId content :
  method request = "PUT" ->
  searchParams_get (searchParams (url request)) "action" = Some "mpu-uploadpart" ->
  searchParams_get (searchParams (url request)) "partNumber" = Some partNumberString ->
  searchParams_get (searchParams (url request)) "uploadId" = Some uploadId ->
  body request = Some content ->
  let key := slice1 (pathname (url request)) in
  run (fetch pf request env)
  = (Ok match uploadPart (BUCKET_NAME env) key uploadId (parseInt pf partNumberString) content with
        | Ok part =>
            {| resp_body := JsonText (JObject [("partNumber", json_of_number (partNumber part));
                                               ("etag", JString (etag part))]);
               status := 200; resp_headers := [] |}
        | Throw msg => {| resp_body := Text msg; status := 400; resp_headers := [] |}
        end,
     [EvStore (OpResumeMultipartUpload key uploadId);
      EvStore (OpUploadPart key uploadId (parseInt pf partNumberString) content)]).
Proof.
  intros Hmethod Haction Hpart Hupload Hbody key.
  unfold run. rewrite fetch_is_route. unfold route.
  rewrite Haction, Hmethod, Hpart, Hupload, Hbody.
  run_monad. fold key.
  destruct (uploadPart (BUCKET_NAME env) key uploadId (parseInt pf partNumberString) content);
    reflexivity.
Qed.

(** C6 (the code departs from it): [mpu-complete] with a [null] body does
    not answer 400: the handler throws.  The [complete] operation is not
    invoked. *)
Theorem C6_complete_without_body_throws :
  run (fetch (Sample.platform Sample.remote_ok)
         (Sample.request "POST" "/song.wav"
            [("action", "mpu-complete"); ("uploadId", "upload-1")] ∅ None)
         Sample.env)
  = (Throw "Unexpected end of JSON input",
     [EvStore (OpResumeMultipartUpload "song.wav" "upload-1")]).
Proof.
  vm_compute. reflexivity.
Qed.

(** C8 (the code departs from it): the store rejects the abort of an
    unknown upload, and the handler still answers 204 with an empty body
    instead of 400 with the store's message. *)
Theorem C8_rejected_abort_answers_204 :
  abort Sample.bucket "song.wav" "gone" = Throw Sample.no_such_upload
  /\ run (fetch (Sample.platform Sample.remote_ok)
            (Sample.request "DELETE" "/song.wav"
               [("action", "mpu-abort"); ("uploadId", "gone")] ∅ None)
            Sample.env)
     = (Ok {| resp_body := NoBody; status := 204; resp_headers := [] |},
        [EvStore (OpResumeMultipartUpload "song.wav" "gone");
         EvStore (OpAbort "song.wav" "gone")]).
Proof.
  split; vm_compute; reflexivity.
Qed.

(** C10: a request whose URL has no [action] parameter is answered 400
    with the body "Missing action type", for every method, and the log of
    the handler is empty: no operation of the bucket was invoked. *)
Theorem C10_missing_action pf request env :
  searchParams_get (searchParams (url request)) "action" = None ->
  run (fetch pf request env)
  = (Ok {| resp_body := Text "Missing action type"; status := 400;
           resp_headers := [] |}, []).
Proof.
  intros Haction. unfold run. rewrite fetch_is_route. unfold route.
  rewrite Haction. reflexivity.
Qed.

(** ** The token codec *)

Module TokenCodecFacts.

Import TokenCodec.

Lemma append_String c a b : String c a +:+ b = String c (a +:+ b).
Proof. reflexivity. Qed.

Lemma append_empty b : "" +:+ b = b.
Proof. reflexivity. Qed.

Lemma split_dots_segment a :
  dot_free a = true -> split_dots a = [a].
Proof.
  induction a as [|c a IH]; simpl; [reflexivity|].
  destruct (Ascii.eqb c "."); simpl; [discriminate|].
  intros Hfree. rewrite (IH Hfree). reflexivity.
Qed.

Lemma split_dots_cons a b :
  dot_free a = true -> split_dots (a +:+ String "." b) = a :: split_dots b.
Proof.
  induction a as [|c a IH]; [reflexivity|].
  rewrite append_String. simpl.
  destruct (Ascii.eqb c "."); simpl; [discriminate|].
  intros Hfree. rewrite (IH Hfree). reflexivity.
Qed.

Lemma append_assoc a b c : (a +:+ b) +:+ c = a +:+ (b +:+ c).
Proof.
  induction a as [|x a IH]; [reflexivity|].
  rewrite !append_String, IH. reflexivity.
Qed.

(** A token made by [sign] has exactly its three segments. *)
Lemma split_dots_token header body sig :
  dot_free header = true -> dot_free body = true -> dot_free sig = true ->
  split_dots ((header +:+ "." +:+ body) +:+ "." +:+ sig) = [header; body; sig].
Proof.
  intros Hh Hb Hs.
  rewrite append_assoc, !append_String, !append_empty.
  rewrite (split_dots_cons header _ Hh).
  rewrite (split_dots_cons body _ Hb).
  rewrite (split_dots_segment sig Hs).
  reflexivity.
Qed.

(** C9: for every claim set, signing it and verifying the token with the
    matching public key and the same algorithm gives the claim set back:
    [sign] succeeds and [verify] returns a payload equal to the input. *)
Theorem C9_sign_verify_round_trip prim claims privateKey publicKey algorithm :
  Lawful prim ->
  KeyPairUnder prim privateKey publicKey algorithm ->
  exists token,
    sign prim claims privateKey algorithm = Ok token
    /\ verify prim token publicKey algorithm = Some {| payload := claims |}.
Proof.
  intros Hlaw Hpair.
  destruct (Hpair (encode_header prim algorithm +:+ "." +:+ encode_claims prim claims))
    as (sig & Hsig & Hvalid).
  unfold sign. rewrite Hsig.
  eexists. split; [reflexivity|].
  unfold verify.
  rewrite split_dots_token.
  - rewrite (header_read_back prim Hlaw), String.eqb_refl. simpl.
    rewrite Hvalid. simpl.
    rewrite (claims_read_back prim Hlaw). reflexivity.
  - apply (header_dot_free prim Hlaw).
  - apply (claims_dot_free prim Hlaw).
  - apply (signature_dot_free prim Hlaw _ _ _ _ Hsig).
Qed.

End TokenCodecFacts.

(** ** The stand-in primitives are lawful *)

Module SampleFacts.

Import TokenCodec Sample.

Lemma take_put_string s rest : take_string (put_string s rest) = Some (s, rest).
Proof.
  induction s as [|c s IH]; simpl; [reflexivity|].
  destruct (Ascii.eqb c ".") eqn:Hdot; simpl.
  - rewrite IH. apply Ascii.eqb_eq in Hdot. subst c. reflexivity.
  - rewrite Hdot, IH. reflexivity.
Qed.

Lemma dot_free_put_string s rest : dot_free (put_string s rest) = dot_free rest.
Proof.
  induction s as [|c s IH]; simpl; [reflexivity|].
  destruct (Ascii.eqb c ".") eqn:Hdot; simpl; [exact IH|].
  rewrite Hdot. exact IH.
Qed.

Lemma length_put_string s rest :
  (String.length rest <= String.length (put_string s rest))%nat.
Proof.
  induction s as [|c s IH]; simpl; [lia|].
  destruct (Ascii.eqb c "."); simpl; lia.
Qed.

Lemma take_put_positive p rest : take_positive (put_positive p rest) = Some (p, rest).
Proof.
  induction p as [q IH|q IH|]; simpl; try rewrite IH; reflexivity.
Qed.

Lemma dot_free_put_positive p rest : dot_free (put_positive p rest) = dot_free rest.
Proof.
  induction p as [q IH|q IH|]; simpl; auto.
Qed.

Lemma take_put_Z z rest : take_Z (put_Z z rest) = Some (z, rest).
Proof.
  destruct z; simpl; try rewrite take_put_positive; reflexivity.
Qed.

Lemma dot_free_put_Z z rest : dot_free (put_Z z rest) = dot_free rest.
Proof.
  destruct z; simpl; auto using dot_free_put_positive.
Qed.

Lemma take_put_strings l rest fuel :
  (length l <= fuel)%nat -> take_strings fuel (put_strings l rest) = Some (l, rest).
Proof.
  revert fuel. induction l as [|s l IH]; intros fuel Hfuel; simpl.
  - destruct fuel; reflexivity.
  - destruct fuel as [|fuel]; simpl in Hfuel; [lia|].
    simpl. rewrite take_put_string, IH by lia. reflexivity.
Qed.

Lemma dot_free_put_strings l rest : dot_free (put_strings l rest) = dot_free rest.
Proof.
  induction l as [|s l IH]; simpl; [reflexivity|].
  rewrite dot_free_put_string. exact IH.
Qed.

Lemma length_put_strings l rest :
  (length l <= String.length (put_strings l rest))%nat.
Proof.
  induction l as [|s l IH]; simpl; [lia|].
  pose proof (length_put_string s (put_strings l rest)). lia.
Qed.

Lemma take_put_status st rest : take_status (put_status st rest) = Some (st, rest).
Proof. destruct st; reflexivity. Qed.

Lemma dot_free_put_status st rest : dot_free (put_status st rest) = dot_free rest.
Proof. destruct st; reflexivity. Qed.

Lemma take_put_optional o rest : take_optional (put_optional o rest) = Some (o, rest).
Proof.
  destruct o; simpl; try rewrite take_put_string; reflexivity.
Qed.

Lemma dot_free_put_optional o rest : dot_free (put_optional o rest) = dot_free rest.
Proof.
  destruct o; simpl; auto using dot_free_put_string.
Qed.

Lemma take_put_claims c : take_claims (put_claims c) = Some c.
Proof.
  destruct c as [a rl sb [cid] nb ia [oid cart songs st]].
  unfold take_claims, put_claims, mbind, option_bind.
  cbv beta iota delta [aud realm sub may_act client_id nbf iat addl
                       orderId orderCartId orderSongIds orderStatus].
  rewrite take_put_optional. cbv beta iota.
  do 3 (rewrite take_put_string; cbv beta iota).
  do 2 (rewrite take_put_Z; cbv beta iota).
  do 2 (rewrite take_put_string; cbv beta iota).
  rewrite take_put_strings by apply length_put_strings. cbv beta iota.
  rewrite take_put_status. cbv beta iota.
  reflexivity.
Qed.

Lemma dot_free_put_claims c : dot_free (put_claims c) = true.
Proof.
  unfold put_claims.
  rewrite dot_free_put_optional, !dot_free_put_string, !dot_free_put_Z,
    !dot_free_put_string, dot_free_put_strings, dot_free_put_status.
  reflexivity.
Qed.

Lemma primitives_lawful : Lawful primitives.
Proof.
  split.
  - intros alg. apply dot_free_put_string.
  - apply dot_free_put_claims.
  - intros key alg input sig.
    change (signature primitives key alg input)
      with (match strip_prefix "private:" key with
            | Some name => Ok (tag name alg input)
            | None => Throw "malformed key"
            end).
    destruct (strip_prefix "private:" key); [|discriminate].
    intros [= <-]. unfold tag. rewrite !dot_free_put_string. reflexivity.
  - intros alg.
    change (take_header (put_string alg "") = Some alg).
    unfold take_header. rewrite take_put_string. reflexivity.
  - apply take_put_claims.
Qed.

Lemma strip_prefix_app p s : strip_prefix p (p +:+ s) = Some s.
Proof.
  induction p as [|c p IH]; [reflexivity|].
  simpl. rewrite Ascii.eqb_refl. exact IH.
Qed.

(** The two keys made from one name match. *)
Lemma named_key_pair name :
  KeyPair primitives ("private:" +:+ name) ("public:" +:+ name).
Proof.
  intros alg input. exists (tag name alg input).
  change (match strip_prefix "private:" ("private:" +:+ name) with
          | Some name' => Ok (tag name' alg input)
          | None => Throw "malformed key"
          end = Ok (tag name alg input)
          /\ match strip_prefix "public:" ("public:" +:+ name) with
             | Some name' => String.eqb (tag name alg input) (tag name' alg input)
             | None => false
             end = true).
  rewrite !strip_prefix_app. split; [reflexivity|]. apply String.eqb_refl.
Qed.

(** A pair that matches under every algorithm matches under each. *)
Lemma key_pair_under prim privateKey publicKey algorithm :
  KeyPair prim privateKey publicKey -> KeyPairUnder prim privateKey publicKey algorithm.
Proof.
  intros Hpair input. exact (Hpair algorithm input).
Qed.

End SampleFacts.

(** ** The statements at concrete inputs *)

Lemma C2_identity_mismatch_denies_witness :
  let pf := Sample.platform Sample.remote_ok in
  let token := Sample.token_of Sample.stranger_claims in
  let hs := Sample.cookie_headers token in
  let verified := {| payload := Sample.stranger_claims |} in
  carries_token pf (COOKIE_NAME Sample.env) hs token
  /\ jwt_verify pf token (CLOUDFLARE_WORKER_PUBLIC_KEY Sample.env)
                (CLOUDFLARE_WORKER_SIGNING_ALGO Sample.env) = Some verified
  /\ identity_mismatch (payload verified) Sample.env
  /\ exists log,
       run (verifyRequest pf hs Sample.env) = (Ok false, log) /\ remote_calls log = [].
Proof.
  intros pf token hs verified.
  assert (Hcookie : carries_token pf (COOKIE_NAME Sample.env) hs token)
    by (exists ("jwt=" +:+ token); split; vm_compute; reflexivity).
  assert (Hverify : jwt_verify pf token (CLOUDFLARE_WORKER_PUBLIC_KEY Sample.env)
                      (CLOUDFLARE_WORKER_SIGNING_ALGO Sample.env) = Some verified)
    by (vm_compute; reflexivity).
  assert (Hmismatch : identity_mismatch (payload verified) Sample.env)
    by (left; simpl; discriminate).
  repeat split; try assumption.
  exact (C2_identity_mismatch_denies pf hs Sample.env token verified
           Hcookie Hverify Hmismatch).
Defined.

Lemma C3_missing_cookie_denies_witness :
  let pf := Sample.platform Sample.remote_ok in
  let hs : Headers := {[ "cookie" := "session=abc" ]} in
  lacks_cookie pf (COOKIE_NAME Sample.env) hs
  /\ run (verifyRequest pf hs Sample.env) = (Ok false, []).
Proof.
  intros pf hs.
  assert (Hlacks : lacks_cookie pf (COOKIE_NAME Sample.env) hs)
    by (vm_compute; reflexivity).
  split; [exact Hlacks|].
  exact (C3_missing_cookie_denies pf hs Sample.env Hlacks).
Defined.


Lemma C5_uploadpart_passes_parseInt_to_store_witness :
  parseInt (Sample.platform Sample.remote_ok) "abc" = NaN
  /\ run (fetch (Sample.platform Sample.remote_ok)
            (Sample.request "PUT" "/song.wav"
               [("action", "mpu-uploadpart"); ("uploadId", "gone");
                ("partNumber", "abc")] ∅ (Some "bytes"))
            Sample.env)
     = (Ok {| resp_body := Text Sample.no_such_upload; status := 400;
              resp_headers := [] |},
        [EvStore (OpResumeMultipartUpload "song.wav" "gone");
         EvStore (OpUploadPart "song.wav" "gone" NaN "bytes")]).
Proof.
  split; [reflexivity|].
  exact (C5_uploadpart_passes_parseInt_to_store
           (Sample.platform Sample.remote_ok)
           (Sample.request "PUT" "/song.wav"
              [("action", "mpu-uploadpart"); ("uploadId", "gone");
               ("partNumber", "abc")] ∅ (Some "bytes"))
           Sample.env "abc" "gone" "bytes"
           eq_refl eq_refl eq_refl eq_refl eq_refl).
Defined.

(** C7, as stated, fails: the two keys of [Sample.env] are the two halves
    of one key pair, and [verifyRequest] verifies the inbound token with one
    half, signs the outbound token with the other, and allows. *)
Lemma C7_counterexample :
  TokenCodec.KeyPair Sample.primitives
    (CLOUDFLARE_WORKER_PRIVATE_KEY Sample.env)
    (CLOUDFLARE_WORKER_PUBLIC_KEY Sample.env)
  /\ fst (run (verifyRequest (Sample.platform Sample.remote_ok)
                 (Sample.cookie_headers (Sample.token_of Sample.caller_claims))
                 Sample.env))
     = Ok true.
Proof.
  split.
  - exact (SampleFacts.named_key_pair "worker").
  - vm_compute. reflexivity.
Qed.

(** With the stand-in primitives, a token is rejected under another public
    key and under another algorithm. *)
Example verify_rejects_other_key :
  let token := Sample.token_of Sample.caller_claims in
  TokenCodec.verify Sample.primitives token "public:other" "RS512" = None
  /\ TokenCodec.verify Sample.primitives token "public:worker" "RS256" = None
  /\ TokenCodec.verify Sample.primitives "not-a-token" "public:worker" "RS512" = None.
Proof.
  repeat split; vm_compute; reflexivity.
Qed.

Lemma C9_sign_verify_round_trip_witness :
  exists token,
    TokenCodec.sign Sample.primitives Sample.caller_claims "private:worker" "RS512"
    = Ok token
    /\ TokenCodec.verify Sample.primitives token "public:worker" "RS512"
       = Some {| payload := Sample.caller_claims |}.
Proof.
  exact (TokenCodecFacts.C9_sign_verify_round_trip
           Sample.primitives Sample.caller_claims "private:worker" "public:worker"
           "RS512" SampleFacts.primitives_lawful
           (SampleFacts.key_pair_under _ _ _ "RS512" (SampleFacts.named_key_pair "worker"))).
Defined.

Lemma C10_missing_action_witness :
  let request := Sample.request "DELETE" "/song.wav" [("uploadId", "upload-1")] ∅ None in
  searchParams_get (searchParams (url request)) "action" = None
  /\ run (fetch (Sample.platform Sample.remote_ok) request Sample.env)
     = (Ok {| resp_body := Text "Missing action type"; status := 400;
              resp_headers := [] |}, []).
Proof.
  intros request. split; [reflexivity|].
  exact (C10_missing_action (Sample.platform Sample.remote_ok) request Sample.env
           eq_refl).
Defined.

(** * Further properties of the worker *)

(** ** The verification request *)

Section ExecuteFacts.

Variable pf : Platform.

(** What [signJwt] does: one [sign] call, with the worker's identity, the
    current time and the given order. *)
Lemma signJwt_run meta env log :
  signJwt pf meta env log
  = (jwt_sign pf {| aud := Some (CLOUDFLARE_WORKER_AUD env);
                    realm := CLOUDFLARE_WORKER_REALM env;
                    sub := CLOUDFLARE_WORKER_SUB env;
                    may_act := {| client_id := CLOUDFLARE_WORKER_CLIENT_ID env |};
                    nbf := Date_now pf; iat := Date_now pf; addl := meta |}
              (CLOUDFLARE_WORKER_PRIVATE_KEY env) (CLOUDFLARE_WORKER_SIGNING_ALGO env),
     log ++ [EvSign {| aud := Some (CLOUDFLARE_WORKER_AUD env);
                       realm := CLOUDFLARE_WORKER_REALM env;
                       sub := CLOUDFLARE_WORKER_SUB env;
                       may_act := {| client_id := CLOUDFLARE_WORKER_CLIENT_ID env |};
                       nbf := Date_now pf; iat := Date_now pf; addl := meta |}
                    (CLOUDFLARE_WORKER_PRIVATE_KEY env)
                    (CLOUDFLARE_WORKER_SIGNING_ALGO env)]).
Proof.
  unfold signJwt, sign. run_monad. reflexivity.
Qed.

Ltac execute_cases :=
  unfold executeConveyorVerificationRequest, http_get; run_monad;
  rewrite ?signJwt_run; simpl;
  repeat match goal with
         | |- context [match ?x with _ => _ end] =>
             lazymatch x with
             | context [match _ with _ => _ end] => fail
             | _ => destruct x eqn:?; simpl
             end
         end.

(** The shape of every run from any log: the [sign] call of [signJwt],
    then at most one call to the verification endpoint. *)
Lemma execute_shape meta env log :
  exists r rest,
    executeConveyorVerificationRequest pf meta env log
    = (Ok r, log ++ snd (run (signJwt pf meta env)) ++ rest)
    /\ (rest = [] \/ exists cookie, rest = [EvFetch (verify_url env) cookie]).
Proof.
  unfold run. rewrite signJwt_run. simpl.
  execute_cases; rewrite <- ?app_assoc; simpl;
    do 2 eexists; (split; [reflexivity|]); eauto.
Qed.

(** X1: [executeConveyorVerificationRequest] never throws, signs once with
    the private key of the worker and the order it was given, and then
    calls the verification endpoint at most once. *)
Theorem X1_execute_never_throws meta env :
  exists r c rest,
    run (executeConveyorVerificationRequest pf meta env)
    = (Ok r, EvSign c (CLOUDFLARE_WORKER_PRIVATE_KEY env)
                    (CLOUDFLARE_WORKER_SIGNING_ALGO env) :: rest)
    /\ addl c = meta
    /\ (rest = [] \/ exists cookie, rest = [EvFetch (verify_url env) cookie]).
Proof.
  execute_cases; do 3 eexists; (split; [reflexivity|]); split; eauto.
Qed.

(** X2: the object that [executeConveyorVerificationRequest] returns has
    either an [error] and no [data], or [data], no [error] and status
    200. *)
Theorem X2_execute_one_sided meta env :
  match fst (run (executeConveyorVerificationRequest pf meta env)) with
  | Ok r => one_sided r
  | Throw _ => False
  end.
Proof.
  unfold one_sided.
  execute_cases; try (left; split; [discriminate|reflexivity]).
  right. repeat split; try discriminate.
  match goal with H : negb _ = false |- _ => apply negb_false_iff, Z.eqb_eq in H; exact H end.
Qed.

(** X3: when signing the outbound token or building its cookie throws,
    the result is an error object with status 500 that carries the message
    of the exception, and the verification endpoint is not called. *)
Theorem X3_execute_signing_failure meta env msg :
  fst (run (signJwt pf meta env)) = Throw msg
  \/ (exists jwt, fst (run (signJwt pf meta env)) = Ok jwt
                  /\ stringifyCookie pf jwt = Throw msg) ->
  run (executeConveyorVerificationRequest pf meta env)
  = (Ok {| error := Some (error_message msg); data := None; api_status := 500 |},
     snd (run (signJwt pf meta env))).
Proof.
  unfold run. rewrite signJwt_run. simpl.
  unfold executeConveyorVerificationRequest, http_get, signJwt, sign. run_monad.
  intros [Hsign | (jwt & Hsign & Hcookie)]; rewrite Hsign; simpl.
  - reflexivity.
  - rewrite Hcookie. reflexivity.
Qed.

(** X4: when the call to the verification endpoint throws, the result is
    an error object with status 500 that carries the message of the
    exception. *)
Theorem X4_execute_transport_failure meta env jwt cookie msg :
  fst (run (signJwt pf meta env)) = Ok jwt ->
  stringifyCookie pf jwt = Ok cookie ->
  global_fetch pf (verify_url env) cookie = Throw msg ->
  run (executeConveyorVerificationRequest pf meta env)
  = (Ok {| error := Some (error_message msg); data := None; api_status := 500 |},
     snd (run (signJwt pf meta env)) ++ [EvFetch (verify_url env) cookie]).
Proof.
  unfold run. rewrite signJwt_run. simpl.
  unfold executeConveyorVerificationRequest, http_get, signJwt, sign. run_monad.
  intros Hsign Hcookie Hfetch. rewrite Hsign. simpl.
  rewrite Hcookie. simpl. rewrite Hfetch. reflexivity.
Qed.

(** X5: when the body of the response cannot be read as JSON, the result
    is an error object with the message of the exception and the status of
    the response, also when that status is 200. *)
Theorem X5_execute_unreadable_body meta env jwt cookie response msg :
  fst (run (signJwt pf meta env)) = Ok jwt ->
  stringifyCookie pf jwt = Ok cookie ->
  global_fetch pf (verify_url env) cookie = Ok response ->
  http_json response = Throw msg ->
  fst (run (executeConveyorVerificationRequest pf meta env))
  = Ok {| error := Some (error_message msg); data := None;
          api_status := http_status response |}.
Proof.
  unfold run. rewrite signJwt_run. simpl.
  unfold executeConveyorVerificationRequest, http_get, signJwt, sign. run_monad.
  intros Hsign Hcookie Hfetch Hjson. rewrite Hsign. simpl.
  rewrite Hcookie. simpl. rewrite Hfetch. simpl.
  destruct (negb (http_status response =? 200)); rewrite Hjson; reflexivity.
Qed.

(** X6: a response with a status other than 200 and a JSON body gives an
    error object whose [error] is that body and whose status is the status
    of the response. *)
Theorem X6_execute_status_passes_through meta env jwt cookie response content :
  fst (run (signJwt pf meta env)) = Ok jwt ->
  stringifyCookie pf jwt = Ok cookie ->
  global_fetch pf (verify_url env) cookie = Ok response ->
  http_status response <> 200 ->
  http_json response = Ok content ->
  fst (run (executeConveyorVerificationRequest pf meta env))
  = Ok {| error := Some content; data := None; api_status := http_status response |}.
Proof.
  unfold run. rewrite signJwt_run. simpl.
  unfold executeConveyorVerificationRequest, http_get, signJwt, sign. run_monad.
  intros Hsign Hcookie Hfetch Hstatus Hjson. rewrite Hsign. simpl.
  rewrite Hcookie. simpl. rewrite Hfetch. simpl.
  apply Z.eqb_neq in Hstatus. rewrite Hstatus. simpl. rewrite Hjson. reflexivity.
Qed.

End ExecuteFacts.

(** ** [verifyRequest] *)

Section VerifyMore.

Variable pf : Platform.

Lemma to_boolean_token token : token <> "" -> to_boolean (Some token) = true.
Proof.
  intros Hne. unfold to_boolean, string_to_boolean.
  apply negb_true_iff, String.eqb_neq. exact Hne.
Qed.

(** X7: a request whose cookie holds a token that verifies and whose four
    identity claims equal the configured ones is allowed when the
    verification endpoint answers 200 with a JSON body; the run verifies
    once, signs once and calls the endpoint once, in this order. *)
Theorem X7_verifyRequest_allows hs env token verified jwt cookie response content :
  extractJwtCookie pf (COOKIE_NAME env) hs = Some token ->
  token <> "" ->
  jwt_verify pf token (CLOUDFLARE_WORKER_PUBLIC_KEY env)
             (CLOUDFLARE_WORKER_SIGNING_ALGO env) = Some verified ->
  client_id (may_act (payload verified)) = AUTHORIZED_CLIENT_ID env ->
  realm (payload verified) = AUTHORIZED_REALM env ->
  aud (payload verified) = Some (aUTHORIZED_AUDIENCE env) ->
  sub (payload verified) = AUTHORIZED_SUBJECT env ->
  fst (run (signJwt pf (addl (payload verified)) env)) = Ok jwt ->
  stringifyCookie pf jwt = Ok cookie ->
  global_fetch pf (verify_url env) cookie = Ok response ->
  http_status response = 200 ->
  http_json response = Ok content ->
  run (verifyRequest pf hs env)
  = (Ok true,
     EvVerify token (CLOUDFLARE_WORKER_PUBLIC_KEY env) (CLOUDFLARE_WORKER_SIGNING_ALGO env)
     :: snd (run (signJwt pf (addl (payload verified)) env))
     ++ [EvFetch (verify_url env) cookie]).
Proof.
  intros Hcookie Hne Hverify Hclient Hrealm Haud Hsub Hsign Hstring Hfetch Hstatus Hjson.
  unfold run in *. rewrite signJwt_run in *. simpl in *.
  unfold verifyRequest, verify. rewrite Hcookie, (to_boolean_token _ Hne). simpl.
  run_monad. rewrite Hverify. simpl.
  rewrite Hclient, Hrealm, Haud, Hsub. simpl.
  unfold strict_neq. rewrite !String.eqb_refl. simpl.
  unfold executeConveyorVerificationRequest, http_get, signJwt, sign. run_monad.
  rewrite Hsign. simpl. rewrite Hstring. simpl. rewrite Hfetch. simpl.
  rewrite Hstatus. simpl. rewrite Hjson. reflexivity.
Qed.

(** X8: a token that [verify] rejects is denied after that one call:
    nothing is signed and the verification endpoint is not called. *)
Theorem X8_verifyRequest_rejected_token hs env token :
  extractJwtCookie pf (COOKIE_NAME env) hs = Some token ->
  token <> "" ->
  jwt_verify pf token (CLOUDFLARE_WORKER_PUBLIC_KEY env)
             (CLOUDFLARE_WORKER_SIGNING_ALGO env) = None ->
  run (verifyRequest pf hs env)
  = (Ok false,
     [EvVerify token (CLOUDFLARE_WORKER_PUBLIC_KEY env)
               (CLOUDFLARE_WORKER_SIGNING_ALGO env)]).
Proof.
  intros Hcookie Hne Hverify.
  unfold run, verifyRequest, verify. rewrite Hcookie, (to_boolean_token _ Hne). simpl.
  run_monad. rewrite Hverify. reflexivity.
Qed.

(** X9: a cookie of the configured name with an empty value is denied
    without any call: the empty token is not handed to [verify]. *)
Theorem X9_verifyRequest_empty_token hs env :
  carries_token pf (COOKIE_NAME env) hs "" ->
  run (verifyRequest pf hs env) = (Ok false, []).
Proof.
  intros (line & Hline & Hparsed).
  unfold run, verifyRequest, extractJwtCookie. rewrite Hline.
  destruct (negb (to_boolean (Some line))); [reflexivity|].
  change (default "" (Some line)) with line.
  rewrite Hparsed. reflexivity.
Qed.

(** X10: a run of [verifyRequest] calls [verify] at most once and the
    verification endpoint at most once. *)
Theorem X10_verifyRequest_call_bounds hs env :
  (length (List.filter is_verify_call (snd (run (verifyRequest pf hs env)))) <= 1)%nat
  /\ (length (remote_calls (snd (run (verifyRequest pf hs env)))) <= 1)%nat.
Proof.
  destruct (verifyRequest_runs pf hs env)
    as [Hnone | token Hcookie Hrej | token verified r log' Hcookie Hverify Hsame Hrun];
    simpl; try lia.
  destruct (execute_shape pf (addl (payload verified)) env
              [EvVerify token (CLOUDFLARE_WORKER_PUBLIC_KEY env)
                        (CLOUDFLARE_WORKER_SIGNING_ALGO env)])
    as (r' & rest & Hshape & Hrest).
  rewrite Hrun in Hshape. injection Hshape as _ ->.
  destruct Hrest as [-> | (cookie & ->)]; simpl; lia.
Qed.

(** X11: the verification endpoint is called only for a token that
    [verify] accepted and whose identity claims match the configured
    ones. *)
Theorem X11_remote_call_needs_identity hs env :
  remote_calls (snd (run (verifyRequest pf hs env))) <> [] ->
  exists token verified,
    extractJwtCookie pf (COOKIE_NAME env) hs = Some token
    /\ jwt_verify pf token (CLOUDFLARE_WORKER_PUBLIC_KEY env)
                  (CLOUDFLARE_WORKER_SIGNING_ALGO env) = Some verified
    /\ ~ identity_mismatch (payload verified) env.
Proof.
  destruct (verifyRequest_runs pf hs env)
    as [Hnone | token Hcookie Hrej | token verified r log' Hcookie Hverify Hsame Hrun];
    simpl.
  - intros H. contradiction.
  - intros H. contradiction.
  - intros _. eauto.
Qed.

(** X12: the token that [verifyRequest] signs carries the order of the
    verified inbound token unchanged, under the identity of the worker and
    with [nbf] and [iat] set to the current time. *)
Theorem X12_outbound_token_carries_order hs env c key alg :
  In (EvSign c key alg) (snd (run (verifyRequest pf hs env))) ->
  exists token verified,
    extractJwtCookie pf (COOKIE_NAME env) hs = Some token
    /\ jwt_verify pf token (CLOUDFLARE_WORKER_PUBLIC_KEY env)
                  (CLOUDFLARE_WORKER_SIGNING_ALGO env) = Some verified
    /\ addl c = addl (payload verified)
    /\ aud c = Some (CLOUDFLARE_WORKER_AUD env)
    /\ realm c = CLOUDFLARE_WORKER_REALM env
    /\ sub c = CLOUDFLARE_WORKER_SUB env
    /\ client_id (may_act c) = CLOUDFLARE_WORKER_CLIENT_ID env
    /\ nbf c = Date_now pf /\ iat c = Date_now pf.
Proof.
  destruct (verifyRequest_runs pf hs env)
    as [Hnone | token Hcookie Hrej | token verified r log' Hcookie Hverify Hsame Hrun];
    simpl.
  - intros [].
  - intros [H | []]. discriminate.
  - destruct (execute_shape pf (addl (payload verified)) env
                [EvVerify token (CLOUDFLARE_WORKER_PUBLIC_KEY env)
                          (CLOUDFLARE_WORKER_SIGNING_ALGO env)])
      as (r' & rest & Hshape & Hrest).
    rewrite Hrun in Hshape. injection Hshape as _ ->.
    intros [H | [H | H]]; try discriminate.
    + injection H as <- _ _. exists token, verified. repeat split; auto.
    + exfalso. destruct Hrest as [-> | (cookie & ->)]; simpl in H;
        [contradiction | destruct H as [H | []]; discriminate].
Qed.

End VerifyMore.

(** ** The router *)

Ltac innermost_cases :=
  repeat match goal with
         | |- context [match ?x with _ => _ end] =>
             lazymatch x with
             | context [match _ with _ => _ end] => fail
             | _ => destruct x eqn:?; simpl
             end
         end.

Ltac enter_route :=
  unfold run; rewrite fetch_is_route; unfold route, request_json.

(** X13: every response of the handler has status 200, 204, 400, 404 or
    405. *)
Theorem X13_response_statuses pf request env :
  match fst (run (fetch pf request env)) with
  | Ok response => In (status response) [200; 204; 400; 404; 405]
  | Throw _ => True
  end.
Proof.
  enter_route. run_monad. innermost_cases; auto 10.
Qed.

(** X14: a request with an [action] parameter and a method other than
    POST, PUT, GET and DELETE is answered 405 with the header
    [Allow: PUT, POST, GET, DELETE], and no operation of the bucket is
    invoked. *)
Theorem X14_method_not_allowed pf request env action :
  searchParams_get (searchParams (url request)) "action" = Some action ->
  method request <> "POST" -> method request <> "PUT" ->
  method request <> "GET" -> method request <> "DELETE" ->
  run (fetch pf request env)
  = (Ok {| resp_body := Text "Method Not Allowed"; status := 405;
           resp_headers := [("Allow", "PUT, POST, GET, DELETE")] |}, []).
Proof.
  intros Haction Hpost Hput Hget Hdelete. enter_route. rewrite Haction.
  apply String.eqb_neq in Hpost, Hput, Hget, Hdelete.
  rewrite Hpost, Hput, Hget, Hdelete. reflexivity.
Qed.

(** X15: for each of the four methods, an action that the router does not
    know for that method is answered 400 with the body
    "Unknown action <action> for <method>", and no operation of the bucket
    is invoked. *)
Theorem X15_unknown_action pf request env action :
  In (method request) ["POST"; "PUT"; "GET"; "DELETE"] ->
  searchParams_get (searchParams (url request)) "action" = Some action ->
  known_action (method request) action = false ->
  run (fetch pf request env)
  = (Ok {| resp_body := Text ("Unknown action " +:+ action +:+ " for " +:+ method request);
           status := 400; resp_headers := [] |}, []).
Proof.
  intros Hmethod Haction Hknown. enter_route. rewrite Haction.
  unfold known_action in Hknown.
  destruct Hmethod as [Hm | [Hm | [Hm | [Hm | []]]]]; rewrite <- Hm in *; simpl in *.
  - apply orb_false_iff in Hknown as [-> ->]. reflexivity.
  - rewrite Hknown. reflexivity.
  - rewrite Hknown. reflexivity.
  - apply orb_false_iff in Hknown as [-> ->]. reflexivity.
Qed.

(** X16: [mpu-complete] and [mpu-abort] without an [uploadId] parameter
    are answered 400 "Missing uploadId" before any operation of the bucket,
    [resumeMultipartUpload] included. *)
Theorem X16_missing_uploadId pf request env :
  (method request = "POST"
   /\ searchParams_get (searchParams (url request)) "action" = Some "mpu-complete")
  \/ (method request = "DELETE"
      /\ searchParams_get (searchParams (url request)) "action" = Some "mpu-abort") ->
  searchParams_get (searchParams (url request)) "uploadId" = None ->
  run (fetch pf request env)
  = (Ok {| resp_body := Text "Missing uploadId"; status := 400; resp_headers := [] |}, []).
Proof.
  intros [[Hmethod Haction] | [Hmethod Haction]] Hupload; enter_route;
    rewrite Haction, Hmethod, Hupload; reflexivity.
Qed.

(** X17: [mpu-uploadpart] without a [partNumber] or without an [uploadId]
    parameter is answered 400 "Missing partNumber or uploadId" before any
    operation of the bucket, whether the request has a body or not. *)
Theorem X17_uploadpart_missing_parameter pf request env :
  method request = "PUT" ->
  searchParams_get (searchParams (url request)) "action" = Some "mpu-uploadpart" ->
  searchParams_get (searchParams (url request)) "partNumber" = None
  \/ searchParams_get (searchParams (url request)) "uploadId" = None ->
  run (fetch pf request env)
  = (Ok {| resp_body := Text "Missing partNumber or uploadId"; status := 400;
           resp_headers := [] |}, []).
Proof.
  intros Hmethod Haction Hmissing. enter_route. rewrite Haction, Hmethod. simpl.
  destruct Hmissing as [-> | ->];
    [|destruct (searchParams_get (searchParams (url request)) "partNumber")];
    reflexivity.
Qed.

(** X18: [mpu-uploadpart] with both parameters and a [null] body is
    answered 400 "Missing request body" before any operation of the
    bucket; the part number is not looked at. *)
Theorem X18_uploadpart_missing_body pf request env partNumberString uploadId :
  method request = "PUT" ->
  searchParams_get (searchParams (url request)) "action" = Some "mpu-uploadpart" ->
  searchParams_get (searchParams (url request)) "partNumber" = Some partNumberString ->
  searchParams_get (searchParams (url request)) "uploadId" = Some uploadId ->
  body request = None ->
  run (fetch pf request env)
  = (Ok {| resp_body := Text "Missing request body"; status := 400;
           resp_headers := [] |}, []).
Proof.
  intros Hmethod Haction Hpart Hupload Hbody. enter_route.
  rewrite Haction, Hmethod, Hpart, Hupload, Hbody. reflexivity.
Qed.

(** X19: [mpu-create] invokes [createMultipartUpload] on the key of the
    URL path; it answers 200 with the key and upload id that the store
    returned, and when the store rejects the operation the handler throws
    the store's message: there is no 4xx or 5xx response. *)
Theorem X19_create pf request env :
  method request = "POST" ->
  searchParams_get (searchParams (url request)) "action" = Some "mpu-create" ->
  let key := slice1 (pathname (url request)) in
  run (fetch pf request env)
  = (match createMultipartUpload (BUCKET_NAME env) key with
     | Ok upload =>
         Ok {| resp_body := JsonText (JObject [("key", JString (mpu_key upload));
                                               ("uploadId", JString (mpu_uploadId upload))]);
               status := 200; resp_headers := [] |}
     | Throw msg => Throw msg
     end,
     [EvStore (OpCreateMultipartUpload key)]).
Proof.
  intros Hmethod Haction key. enter_route. rewrite Haction, Hmethod.
  run_monad. fold key.
  destruct (createMultipartUpload (BUCKET_NAME env) key); reflexivity.
Qed.

(** X20: [mpu-complete] with a body that parses to a JSON value other than
    [null] invokes [complete] with the [parts] property of that value
    ([undefined] when there is none); it answers 200 with an empty body
    and the [etag] header of the completed object, or 400 with the store's
    message when the store rejects the operation. *)
Theorem X20_complete pf request env uploadId text parsed :
  method request = "POST" ->
  searchParams_get (searchParams (url request)) "action" = Some "mpu-complete" ->
  searchParams_get (searchParams (url request)) "uploadId" = Some uploadId ->
  body request = Some text ->
  text <> "" ->
  JSON_parse pf text = Ok parsed ->
  parsed <> JNull ->
  let key := slice1 (pathname (url request)) in
  run (fetch pf request env)
  = (Ok match complete (BUCKET_NAME env) key uploadId (get_property parsed "parts") with
        | Ok object =>
            {| resp_body := NoBody; status := 200;
               resp_headers := [("etag", httpEtag object)] |}
        | Throw msg => {| resp_body := Text msg; status := 400; resp_headers := [] |}
        end,
     [EvStore (OpResumeMultipartUpload key uploadId);
      EvStore (OpComplete key uploadId (get_property parsed "parts"))]).
Proof.
  intros Hmethod Haction Hupload Hbody Htext Hparse Hnull key. enter_route.
  rewrite Haction, Hmethod, Hupload, Hbody. simpl.
  apply String.eqb_neq in Htext. rewrite Htext.
  run_monad. rewrite Hparse. fold key.
  destruct parsed; try contradiction; simpl;
    match goal with
    | |- context [complete ?b ?k ?u ?p] => destruct (complete b k u p); reflexivity
    end.
Qed.

(** X21: [mpu-complete] with the JSON body [null] is answered 400
    "Missing or incomplete body"; the upload was resumed but [complete] is
    not invoked. *)
Theorem X21_complete_null_body pf request env uploadId text :
  method request = "POST" ->
  searchParams_get (searchParams (url request)) "action" = Some "mpu-complete" ->
  searchParams_get (searchParams (url request)) "uploadId" = Some uploadId ->
  body request = Some text ->
  text <> "" ->
  JSON_parse pf text = Ok JNull ->
  run (fetch pf request env)
  = (Ok {| resp_body := Text "Missing or incomplete body"; status := 400;
           resp_headers := [] |},
     [EvStore (OpResumeMultipartUpload (slice1 (pathname (url request))) uploadId)]).
Proof.
  intros Hmethod Haction Hupload Hbody Htext Hparse. enter_route.
  rewrite Haction, Hmethod, Hupload, Hbody. simpl.
  apply String.eqb_neq in Htext. rewrite Htext.
  run_monad. rewrite Hparse. reflexivity.
Qed.

(** X22: [GET] with action [get] reads the object named by the URL path:
    404 "Object Not Found" when the store has none, otherwise 200 with the
    object's body and an [etag] header equal to its [httpEtag]; when the
    store rejects the read the handler throws. *)
Theorem X22_get pf request env :
  method request = "GET" ->
  searchParams_get (searchParams (url request)) "action" = Some "get" ->
  let key := slice1 (pathname (url request)) in
  run (fetch pf request env)
  = (match get (BUCKET_NAME env) key with
     | Ok None =>
         Ok {| resp_body := Text "Object Not Found"; status := 404; resp_headers := [] |}
     | Ok (Some object) =>
         Ok {| resp_body := ObjectStream (obj_body object); status := 200;
               resp_headers := headers_set "etag" (httpEtag object) (httpMetadata object) |}
     | Throw msg => Throw msg
     end,
     [EvStore (OpGet key)]).
Proof.
  intros Hmethod Haction key. enter_route. rewrite Haction, Hmethod.
  run_monad. fold key.
  destruct (get (BUCKET_NAME env) key) as [[object|]|msg]; reflexivity.
Qed.

(** The [etag] that [headers.set] writes is the only one, and the other
    headers are kept. *)
Lemma headers_set_etag value hs :
  List.filter (fun kv => String.eqb (fst kv) "etag") (headers_set "etag" value hs)
  = [("etag", value)]
  /\ List.filter (fun kv => negb (String.eqb (fst kv) "etag")) (headers_set "etag" value hs)
     = List.filter (fun kv => negb (String.eqb (fst kv) "etag")) hs.
Proof.
  unfold headers_set. rewrite !List.filter_app. simpl. split.
  - induction hs as [|[k v] hs IH]; simpl; [reflexivity|].
    destruct (String.eqb k "etag") eqn:Hk; simpl; [exact IH|].
    rewrite Hk. exact IH.
  - rewrite app_nil_r.
    induction hs as [|[k v] hs IH]; simpl; [reflexivity|].
    destruct (String.eqb k "etag") eqn:Hk; simpl; [exact IH|].
    rewrite Hk. simpl. rewrite IH. reflexivity.
Qed.

(** X23: [DELETE] with action [delete] invokes [delete] on the key of the
    URL path and answers 204 with an empty body, also for a key that the
    store does not hold; when the store rejects the operation the handler
    throws. *)
Theorem X23_delete pf request env :
  method request = "DELETE" ->
  searchParams_get (searchParams (url request)) "action" = Some "delete" ->
  let key := slice1 (pathname (url request)) in
  run (fetch pf request env)
  = (match delete (BUCKET_NAME env) key with
     | Ok _ => Ok {| resp_body := NoBody; status := 204; resp_headers := [] |}
     | Throw msg => Throw msg
     end,
     [EvStore (OpDelete key)]).
Proof.
  intros Hmethod Haction key. enter_route. rewrite Haction, Hmethod.
  run_monad. fold key.
  destruct (delete (BUCKET_NAME env) key); reflexivity.
Qed.

(** X24: every operation that the handler invokes on the bucket addresses
    the key of the URL path, which is the path without its first
    character. *)
Theorem X24_operations_address_path_key pf request env :
  Forall (fun op => op_key op = slice1 (pathname (url request)))
         (store_ops (snd (run (fetch pf request env)))).
Proof.
  enter_route. run_monad. innermost_cases; repeat constructor.
Qed.

(** X25: for one request the handler invokes nothing on the bucket, or
    one operation, or one [resumeMultipartUpload] followed by one operation
    sent to the store: never two operations sent to the store, never two
    resumes, never a resume after an operation. *)
Theorem X25_at_most_one_store_operation pf request env :
  resume_then_operation (store_ops (snd (run (fetch pf request env)))).
Proof.
  enter_route. run_monad. innermost_cases; simpl; auto.
Qed.

(** X26: the handler throws only in four places: [mpu-create], [get] and
    [delete], when the store rejects the operation, and [mpu-complete],
    whose body is read outside of the [try] block.  Every PUT request and
    every [mpu-abort] is answered with a response. *)
Theorem X26_where_the_handler_throws pf request env msg :
  fst (run (fetch pf request env)) = Throw msg ->
  (method request = "POST"
   /\ (searchParams_get (searchParams (url request)) "action" = Some "mpu-create"
       \/ searchParams_get (searchParams (url request)) "action" = Some "mpu-complete"))
  \/ (method request = "GET"
      /\ searchParams_get (searchParams (url request)) "action" = Some "get")
  \/ (method request = "DELETE"
      /\ searchParams_get (searchParams (url request)) "action" = Some "delete").
Proof.
  enter_route. run_monad.
  destruct (searchParams_get (searchParams (url request)) "action") as [action|];
    [|discriminate].
  destruct (String.eqb (method request) "POST") eqn:Hpost.
  { apply String.eqb_eq in Hpost.
    destruct (String.eqb action "mpu-create") eqn:Hcreate.
    { apply String.eqb_eq in Hcreate. subst action. auto. }
    destruct (String.eqb action "mpu-complete") eqn:Hcomplete.
    { apply String.eqb_eq in Hcomplete. subst action. auto. }
    discriminate. }
  destruct (String.eqb (method request) "PUT") eqn:Hput.
  { innermost_cases; discriminate. }
  destruct (String.eqb (method request) "GET") eqn:Hget.
  { apply String.eqb_eq in Hget.
    destruct (String.eqb action "get") eqn:Haction; simpl; [|discriminate].
    apply String.eqb_eq in Haction. subst action. auto. }
  destruct (String.eqb (method request) "DELETE") eqn:Hdelete; [|discriminate].
  apply String.eqb_eq in Hdelete.
  destruct (String.eqb action "mpu-abort") eqn:Habort.
  { innermost_cases; discriminate. }
  destruct (String.eqb action "delete") eqn:Haction; [|discriminate].
  apply String.eqb_eq in Haction. subst action. auto.
Qed.

(** ** The further properties at concrete inputs *)

Lemma X3_execute_signing_failure_witness :
  run (executeConveyorVerificationRequest Cases.pf Sample.order Cases.env_bad_key)
  = (Ok {| error := Some (error_message "malformed key"); data := None;
           api_status := 500 |},
     snd (run (signJwt Cases.pf Sample.order Cases.env_bad_key)))
  /\ remote_calls (snd (run (signJwt Cases.pf Sample.order Cases.env_bad_key))) = [].
Proof.
  split; [|reflexivity].
  apply (X3_execute_signing_failure Cases.pf Sample.order Cases.env_bad_key
           "malformed key").
  left. vm_compute. reflexivity.
Defined.

Lemma X4_execute_transport_failure_witness :
  fst (run (executeConveyorVerificationRequest (Sample.platform Sample.remote_down)
              Sample.order Sample.env))
  = Ok {| error := Some (error_message "connection reset"); data := None;
          api_status := 500 |}.
Proof.
  rewrite (X4_execute_transport_failure (Sample.platform Sample.remote_down)
             Sample.order Sample.env Cases.outbound_jwt Cases.outbound_cookie
             "connection reset");
    [reflexivity | vm_compute; reflexivity | vm_compute; reflexivity | reflexivity].
Defined.

Lemma X5_execute_unreadable_body_witness :
  fst (run (executeConveyorVerificationRequest (Sample.platform Cases.remote_garbled)
              Sample.order Sample.env))
  = Ok {| error := Some (error_message "Unexpected token < in JSON"); data := None;
          api_status := 200 |}.
Proof.
  exact (X5_execute_unreadable_body (Sample.platform Cases.remote_garbled)
           Sample.order Sample.env Cases.outbound_jwt Cases.outbound_cookie
           (Cases.response_of Cases.remote_garbled) "Unexpected token < in JSON"
           ltac:(vm_compute; reflexivity) ltac:(vm_compute; reflexivity)
           eq_refl eq_refl).
Defined.

Lemma X6_execute_status_passes_through_witness :
  fst (run (executeConveyorVerificationRequest (Sample.platform (Sample.remote_status 403))
              Sample.order Sample.env))
  = Ok {| error := Some (JObject [("message", JString "order not valid")]);
          data := None; api_status := 403 |}.
Proof.
  exact (X6_execute_status_passes_through (Sample.platform (Sample.remote_status 403))
           Sample.order Sample.env Cases.outbound_jwt Cases.outbound_cookie
           (Cases.response_of (Sample.remote_status 403))
           (JObject [("message", JString "order not valid")])
           ltac:(vm_compute; reflexivity) ltac:(vm_compute; reflexivity)
           eq_refl ltac:(simpl; lia) eq_refl).
Defined.

Lemma X7_verifyRequest_allows_witness :
  run (verifyRequest Cases.pf Cases.caller_headers Sample.env)
  = (Ok true,
     EvVerify (Sample.token_of Sample.caller_claims) "public:worker" "RS512"
     :: snd (run (signJwt Cases.pf Sample.order Sample.env))
     ++ [EvFetch "https://conveyor.example/api/v1/order/verify" Cases.outbound_cookie]).
Proof.
  exact (X7_verifyRequest_allows Cases.pf Cases.caller_headers Sample.env
           (Sample.token_of Sample.caller_claims)
           {| payload := Sample.caller_claims |}
           Cases.outbound_jwt Cases.outbound_cookie
           (Cases.response_of Sample.remote_ok)
           (JObject [("message", JString "OK")])
           ltac:(vm_compute; reflexivity) ltac:(vm_compute; discriminate)
           ltac:(vm_compute; reflexivity)
           eq_refl eq_refl eq_refl eq_refl
           ltac:(vm_compute; reflexivity) ltac:(vm_compute; reflexivity)
           eq_refl eq_refl eq_refl).
Defined.

Lemma X8_verifyRequest_rejected_token_witness :
  run (verifyRequest Cases.pf (Sample.cookie_headers "abc.def.ghi") Sample.env)
  = (Ok false, [EvVerify "abc.def.ghi" "public:worker" "RS512"]).
Proof.
  exact (X8_verifyRequest_rejected_token Cases.pf (Sample.cookie_headers "abc.def.ghi")
           Sample.env "abc.def.ghi"
           ltac:(vm_compute; reflexivity) ltac:(discriminate)
           ltac:(vm_compute; reflexivity)).
Defined.

Lemma X9_verifyRequest_empty_token_witness :
  run (verifyRequest Cases.pf (Sample.cookie_headers "") Sample.env) = (Ok false, []).
Proof.
  apply (X9_verifyRequest_empty_token Cases.pf (Sample.cookie_headers "") Sample.env).
  exists "jwt=". split; vm_compute; reflexivity.
Defined.

Lemma X11_remote_call_needs_identity_witness :
  exists token verified,
    extractJwtCookie Cases.pf "jwt" Cases.caller_headers = Some token
    /\ jwt_verify Cases.pf token "public:worker" "RS512" = Some verified
    /\ ~ identity_mismatch (payload verified) Sample.env.
Proof.
  apply (X11_remote_call_needs_identity Cases.pf Cases.caller_headers Sample.env).
  vm_compute. discriminate.
Defined.

Lemma X12_outbound_token_carries_order_witness :
  exists c,
    In (EvSign c "private:worker" "RS512")
       (snd (run (verifyRequest Cases.pf Cases.caller_headers Sample.env)))
    /\ addl c = Sample.order
    /\ sub c = "upload-worker".
Proof.
  exists {| aud := Some "conveyor"; realm := "orders"; sub := "upload-worker";
            may_act := {| client_id := "worker" |};
            nbf := 1700000000000; iat := 1700000000000; addl := Sample.order |}.
  assert (Hin : In (EvSign {| aud := Some "conveyor"; realm := "orders";
                              sub := "upload-worker";
                              may_act := {| client_id := "worker" |};
                              nbf := 1700000000000; iat := 1700000000000;
                              addl := Sample.order |} "private:worker" "RS512")
                   (snd (run (verifyRequest Cases.pf Cases.caller_headers Sample.env))))
    by (vm_compute; right; left; reflexivity).
  split; [exact Hin|].
  destruct (X12_outbound_token_carries_order Cases.pf Cases.caller_headers Sample.env
              _ _ _ Hin)
    as (token & verified & _ & _ & _ & _ & _ & Hsub & _).
  split; [reflexivity | exact Hsub].
Defined.

Lemma X14_method_not_allowed_witness :
  run (fetch Cases.pf (Sample.request "PATCH" "/song.wav" [("action", "get")] ∅ None)
         Sample.env)
  = (Ok {| resp_body := Text "Method Not Allowed"; status := 405;
           resp_headers := [("Allow", "PUT, POST, GET, DELETE")] |}, []).
Proof.
  apply (X14_method_not_allowed Cases.pf
           (Sample.request "PATCH" "/song.wav" [("action", "get")] ∅ None)
           Sample.env "get");
    [reflexivity | discriminate..].
Defined.

Lemma X15_unknown_action_witness :
  run (fetch Cases.pf (Sample.request "GET" "/song.wav" [("action", "frobnicate")] ∅ None)
         Sample.env)
  = (Ok {| resp_body := Text "Unknown action frobnicate for GET"; status := 400;
           resp_headers := [] |}, []).
Proof.
  apply (X15_unknown_action Cases.pf
           (Sample.request "GET" "/song.wav" [("action", "frobnicate")] ∅ None)
           Sample.env "frobnicate").
  - right. right. left. reflexivity.
  - reflexivity.
  - reflexivity.
Defined.

Lemma X16_missing_uploadId_witness :
  run (fetch Cases.pf
         (Sample.request "DELETE" "/song.wav" [("action", "mpu-abort")] ∅ None)
         Sample.env)
  = (Ok {| resp_body := Text "Missing uploadId"; status := 400; resp_headers := [] |}, []).
Proof.
  apply (X16_missing_uploadId Cases.pf
           (Sample.request "DELETE" "/song.wav" [("action", "mpu-abort")] ∅ None)
           Sample.env).
  - right. split; reflexivity.
  - reflexivity.
Defined.

Lemma X17_uploadpart_missing_parameter_witness :
  run (fetch Cases.pf
         (Sample.request "PUT" "/song.wav"
            [("action", "mpu-uploadpart"); ("partNumber", "1")] ∅ (Some "bytes"))
         Sample.env)
  = (Ok {| resp_body := Text "Missing partNumber or uploadId"; status := 400;
           resp_headers := [] |}, []).
Proof.
  apply (X17_uploadpart_missing_parameter Cases.pf
           (Sample.request "PUT" "/song.wav"
              [("action", "mpu-uploadpart"); ("partNumber", "1")] ∅ (Some "bytes"))
           Sample.env);
    [reflexivity | reflexivity | right; reflexivity].
Defined.

Lemma X18_uploadpart_missing_body_witness :
  run (fetch Cases.pf
         (Sample.request "PUT" "/song.wav"
            [("action", "mpu-uploadpart"); ("partNumber", "abc");
             ("uploadId", "upload-1")] ∅ None)
         Sample.env)
  = (Ok {| resp_body := Text "Missing request body"; status := 400;
           resp_headers := [] |}, []).
Proof.
  exact (X18_uploadpart_missing_body Cases.pf
           (Sample.request "PUT" "/song.wav"
              [("action", "mpu-uploadpart"); ("partNumber", "abc");
               ("uploadId", "upload-1")] ∅ None)
           Sample.env "abc" "upload-1" eq_refl eq_refl eq_refl eq_refl eq_refl).
Defined.

Lemma X19_create_witness :
  run (fetch Cases.pf (Sample.request "POST" "/song.wav" [("action", "mpu-create")] ∅ None)
         Sample.env)
  = (Ok {| resp_body := JsonText (JObject [("key", JString "song.wav");
                                           ("uploadId", JString "upload-1")]);
           status := 200; resp_headers := [] |},
     [EvStore (OpCreateMultipartUpload "song.wav")])
  /\ run (fetch Cases.pf
            (Sample.request "POST" "/song.wav" [("action", "mpu-create")] ∅ None)
            Cases.env_bucket_down)
     = (Throw "bucket unavailable", [EvStore (OpCreateMultipartUpload "song.wav")]).
Proof.
  split.
  - exact (X19_create Cases.pf
             (Sample.request "POST" "/song.wav" [("action", "mpu-create")] ∅ None)
             Sample.env eq_refl eq_refl).
  - exact (X19_create Cases.pf
             (Sample.request "POST" "/song.wav" [("action", "mpu-create")] ∅ None)
             Cases.env_bucket_down eq_refl eq_refl).
Defined.

Lemma X20_complete_witness :
  run (fetch Cases.pf
         (Sample.request "POST" "/song.wav"
            [("action", "mpu-complete"); ("uploadId", "gone")] ∅ (Some "[]"))
         Sample.env)
  = (Ok {| resp_body := Text Sample.no_such_upload; status := 400; resp_headers := [] |},
     [EvStore (OpResumeMultipartUpload "song.wav" "gone");
      EvStore (OpComplete "song.wav" "gone" None)]).
Proof.
  exact (X20_complete Cases.pf
           (Sample.request "POST" "/song.wav"
              [("action", "mpu-complete"); ("uploadId", "gone")] ∅ (Some "[]"))
           Sample.env "gone" "[]" (JArray [])
           eq_refl eq_refl eq_refl eq_refl
           ltac:(discriminate) eq_refl ltac:(discriminate)).
Defined.

Lemma X21_complete_null_body_witness :
  run (fetch Cases.pf
         (Sample.request "POST" "/song.wav"
            [("action", "mpu-complete"); ("uploadId", "upload-1")] ∅ (Some "null"))
         Sample.env)
  = (Ok {| resp_body := Text "Missing or incomplete body"; status := 400;
           resp_headers := [] |},
     [EvStore (OpResumeMultipartUpload "song.wav" "upload-1")]).
Proof.
  exact (X21_complete_null_body Cases.pf
           (Sample.request "POST" "/song.wav"
              [("action", "mpu-complete"); ("uploadId", "upload-1")] ∅ (Some "null"))
           Sample.env "upload-1" "null"
           eq_refl eq_refl eq_refl eq_refl ltac:(discriminate) eq_refl).
Defined.

Lemma X22_get_witness :
  run (fetch Cases.pf (Sample.request "GET" "/missing.wav" [("action", "get")] ∅ None)
         Sample.env)
  = (Ok {| resp_body := Text "Object Not Found"; status := 404; resp_headers := [] |},
     [EvStore (OpGet "missing.wav")]).
Proof.
  exact (X22_get Cases.pf
           (Sample.request "GET" "/missing.wav" [("action", "get")] ∅ None)
           Sample.env eq_refl eq_refl).
Defined.

Lemma X23_delete_witness :
  run (fetch Cases.pf (Sample.request "DELETE" "/missing.wav" [("action", "delete")] ∅ None)
         Sample.env)
  = (Ok {| resp_body := NoBody; status := 204; resp_headers := [] |},
     [EvStore (OpDelete "missing.wav")]).
Proof.
  exact (X23_delete Cases.pf
           (Sample.request "DELETE" "/missing.wav" [("action", "delete")] ∅ None)
           Sample.env eq_refl eq_refl).
Defined.

Lemma X26_where_the_handler_throws_witness :
  let request := Sample.request "GET" "/song.wav" [("action", "get")] ∅ None in
  fst (run (fetch Cases.pf request Cases.env_bucket_down)) = Throw "bucket unavailable"
  /\ ((method request = "POST"
       /\ (searchParams_get (searchParams (url request)) "action" = Some "mpu-create"
           \/ searchParams_get (searchParams (url request)) "action" = Some "mpu-complete"))
      \/ (method request = "GET"
          /\ searchParams_get (searchParams (url request)) "action" = Some "get")
      \/ (method request = "DELETE"
          /\ searchParams_get (searchParams (url request)) "action" = Some "delete")).
Proof.
  intros request.
  assert (Hthrow : fst (run (fetch Cases.pf request Cases.env_bucket_down))
                   = Throw "bucket unavailable") by (vm_compute; reflexivity).
  split; [exact Hthrow|].
  exact (X26_where_the_handler_throws Cases.pf request Cases.env_bucket_down
           "bucket unavailable" Hthrow).
Defined.
